(** * newsAI: the YouTube retrieval-and-enrichment pipeline of [main.py]

    A shallow embedding of [src/main.py].  Python values are a small sum
    type, a [pandas] frame is an ordered list of column names with one
    finite map per row, and every method of [YouTubeAnalytics] is a
    function in a state-and-exception monad over a world that holds the
    provider, the requests issued so far, the log and the files written.

    The Google API client, [pandas]' and [isodate]'s string parsers and
    [TextBlob] are not part of the repository: they are interfaces
    ([Provider], [Libraries]) with a reference instance used by the
    examples. *)

From Stdlib Require Import ZArith List String Ascii Bool Lia Floats.
From stdpp Require Import base option list gmap strings.

Import ListNotations.
Set Warnings "-register-all".
Local Open Scope string_scope.
Local Open Scope list_scope.
Local Open Scope Z_scope.

(** ** Python values *)

(** Nanoseconds since the epoch, wall-clock time of the column's zone:
    the representation of [datetime64[ns]]. *)
Abbreviation Timestamp := Z.

(** [PNone] stands for every null that [pd.notnull] rejects in an object
    column ([None], [NaN], [NaT]). *)
Inductive pyval : Type :=
| PNone
| PInt (z : Z)
| PFloat (f : float)
| PStr (s : string)
| PList (l : list pyval)
| PDict (d : list (string * pyval))
| PTime (t : Timestamp).

(** A JSON object or Python [dict]: insertion-ordered. *)
Abbreviation dict := (list (string * pyval)).

Fixpoint dict_lookup (d : dict) (k : string) : option pyval :=
  match d with
  | [] => None
  | (k', v) :: d' => if String.eqb k' k then Some v else dict_lookup d' k
  end.

(** [d.get(k)] *)
Definition dict_get (d : dict) (k : string) : pyval :=
  default PNone (dict_lookup d k).

(** [d.get(k, dflt)] *)
Definition dict_get_default (d : dict) (k : string) (dflt : pyval) : pyval :=
  default dflt (dict_lookup d k).

(** [d[k] = v] *)
Fixpoint dict_set (d : dict) (k : string) (v : pyval) : dict :=
  match d with
  | [] => [(k, v)]
  | (k', v') :: d' =>
      if String.eqb k' k then (k', v) :: d' else (k', v') :: dict_set d' k v
  end.

(** Integer to binary64, rounded to nearest even. *)
Definition Z2float (z : Z) : float := SF2Prim (binary_normalize prec emax z 0 false).

(** Truncation of a finite binary64 towards zero; [None] on infinities and NaN. *)
Definition float_trunc (f : float) : option Z :=
  match Prim2SF f with
  | S754_zero _ => Some 0
  | S754_finite s m e =>
      let v := if 0 <=? e then Z.pos m * 2 ^ e else Z.pos m / 2 ^ (- e) in
      Some (if s then - v else v)
  | S754_infinity _ => None
  | S754_nan => None
  end.

(** Truth value of [if x:]. *)
Definition truthy (v : pyval) : bool :=
  match v with
  | PNone => false
  | PInt z => negb (z =? 0)
  | PFloat f => negb (PrimFloat.eqb f 0%float)
  | PStr s => negb (String.eqb s "")
  | PList l => match l with [] => false | _ => true end
  | PDict d => match d with [] => false | _ => true end
  | PTime _ => true
  end.

(** [pd.notnull(x)] on a scalar. *)
Definition notnull (v : pyval) : bool :=
  match v with
  | PNone => false
  | PFloat f => negb (PrimFloat.is_nan f)
  | _ => true
  end.

(** ** Exceptions, log and outcomes *)

Inductive exn : Type :=
| KeyError (key : string)
| ValueError (msg : string)
| TypeError (msg : string)
| ZeroDivisionError
| ISO8601Error (msg : string)
| OverflowError (msg : string)
| HttpError (status : Z) (content : string).

Inductive level := INFO | ERROR.

(** A log call: the f-string's fixed text and the values spliced in. *)
Record log_record := LogRecord {
  log_level : level;
  log_text : string;
  log_args : list pyval }.

(** [OutOfFuel] is not a Python outcome: the model of an unbounded loop
    stopped before the loop did. *)
Inductive Outcome (A : Type) : Type :=
| Return (a : A)
| Raise (e : exn)
| OutOfFuel.
Arguments Return {A} a.
Arguments Raise {A} e.
Arguments OutOfFuel {A}.

Definition obind {A B} (c : Outcome A) (k : A -> Outcome B) : Outcome B :=
  match c with
  | Return a => k a
  | Raise e => Raise e
  | OutOfFuel => OutOfFuel
  end.

(** [for x in xs: acc = f(acc, x)] where the body may raise. *)
Fixpoint ofold {A S} (f : S -> A -> Outcome S) (xs : list A) (acc : S) : Outcome S :=
  match xs with
  | [] => Return acc
  | x :: xs' => obind (f acc x) (ofold f xs')
  end.

(** [[f(x) for x in xs]] where [f] may raise. *)
Fixpoint omap {A B} (f : A -> Outcome B) (xs : list A) : Outcome (list B) :=
  match xs with
  | [] => Return []
  | x :: xs' => obind (f x) (fun y => obind (omap f xs') (fun ys => Return (y :: ys)))
  end.

(** ** Data frames *)

(** Ordered column labels and one map per row; a cell missing from a row's
    map reads as null, as [pandas] fills it. *)
Record DataFrame := mkDataFrame {
  columns : list string;
  rows : list (gmap string pyval) }.

Abbreviation Series := (list pyval).

(** [pd.DataFrame()] *)
Definition empty_frame : DataFrame := mkDataFrame [] [].

Definition has_column (df : DataFrame) (col : string) : bool :=
  existsb (String.eqb col) (columns df).

Definition cell (r : gmap string pyval) (col : string) : pyval :=
  default PNone (r !! col).

(** [df[col]] *)
Definition df_getitem (df : DataFrame) (col : string) : Outcome Series :=
  if has_column df col then Return (map (fun r => cell r col) (rows df))
  else Raise (KeyError col).

Fixpoint set_cells (col : string) (rs : list (gmap string pyval)) (s : Series)
  : list (gmap string pyval) :=
  match rs, s with
  | r :: rs', v :: s' => <[col := v]> r :: set_cells col rs' s'
  | _, _ => []
  end.

(** [df[col] = s], for a series as long as the frame. *)
Definition df_setitem (df : DataFrame) (col : string) (s : Series) : DataFrame :=
  mkDataFrame
    (if has_column df col then columns df else columns df ++ [col])
    (set_cells col (rows df) s).

Fixpoint add_labels (seen : list string) (ks : list string) : list string :=
  match ks with
  | [] => seen
  | k :: ks' =>
      if existsb (String.eqb k) seen then add_labels seen ks'
      else add_labels (seen ++ [k]) ks'
  end.

Definition row_of_dict (d : dict) : gmap string pyval :=
  fold_left (fun m kv => <[fst kv := snd kv]> m) d ∅.

(** [pd.DataFrame(records)] for a list of dicts: the labels are the keys in
    order of first appearance. *)
Definition frame_of_records (records : list dict) : DataFrame :=
  mkDataFrame
    (fold_left (fun seen d => add_labels seen (map fst d)) records [])
    (map row_of_dict records).

(** [pd.concat([a, b], ignore_index=True)] *)
Definition concat_frames (a b : DataFrame) : DataFrame :=
  mkDataFrame (add_labels (columns a) (columns b)) (rows a ++ rows b).

(** [row[col]] for a row handed out by [iterrows] or [apply(axis=1)]: the
    row is indexed by the frame's labels. *)
Definition row_getitem (df : DataFrame) (r : gmap string pyval) (col : string)
  : Outcome pyval :=
  if has_column df col then Return (cell r col) else Raise (KeyError col).

(** A series built from per-row results: one float makes the whole numeric
    series floating ([int64] and [float64] mix to [float64]). *)
Definition is_float (v : pyval) : bool :=
  match v with PFloat _ => true | _ => false end.

Definition upcast (v : pyval) : pyval :=
  match v with PInt z => PFloat (Z2float z) | _ => v end.

Definition series_of_results (vs : list pyval) : Series :=
  if existsb is_float vs then map upcast vs else vs.

(** ** The provider: the Google API client

    [request.execute()] either returns the parsed response or raises
    [HttpError]; the client keeps its own state between calls.  Responses
    are typed after the API's schema, with every field the code looks up
    optional. *)

Inductive request : Type :=
| ChannelsList (part id : string)
| PlaylistItemsList (part : string) (playlistId : pyval) (maxResults : Z)
    (pageToken : option string)
| VideosList (part id : string)
| SearchList (part : string) (channelId : pyval) (eventType type : string)
    (maxResults : Z)
| ReportsQuery (ids : pyval) (startDate endDate : pyval)
    (metrics dimensions sort : string).

Inductive Reply (A : Type) : Type :=
| Ok (response : A)
| Failed (status : Z) (content : string).
Arguments Ok {A} response.
Arguments Failed {A} status content.

Record ChannelContentDetails := { relatedPlaylists : option dict }.

Record ChannelItem := {
  ch_id : pyval;
  ch_snippet : option dict;
  ch_statistics : option dict;
  ch_contentDetails : option ChannelContentDetails }.

Record PlaylistItem := { pi_contentDetails : option dict }.

Record VideoItem := {
  vi_id : pyval;
  vi_parts : list (string * dict) }.

Record SearchItem := {
  si_id : option dict;
  si_snippet : option dict }.

(** A list response: [items] and [nextPageToken] may both be absent. *)
Record Listing (I : Type) := mkListing {
  items : option (list I);
  nextPageToken : option string }.
Arguments mkListing {I} items nextPageToken.
Arguments items {I} l.
Arguments nextPageToken {I} l.

Record Report := {
  columnHeaders : option (list dict);
  report_rows : option (list (list pyval)) }.

Class Provider (PState : Type) := {
  channels_list : string -> string -> PState -> Reply (Listing ChannelItem) * PState;
  playlistItems_list :
    string -> pyval -> Z -> option string -> PState ->
    Reply (Listing PlaylistItem) * PState;
  videos_list : string -> string -> PState -> Reply (Listing VideoItem) * PState;
  search_list :
    string -> pyval -> string -> string -> Z -> PState ->
    Reply (Listing SearchItem) * PState;
  reports_query :
    pyval -> pyval -> pyval -> string -> string -> string -> PState ->
    Reply Report * PState }.

(** ** The libraries: string parsers and the sentiment scorer *)

Inductive number := NInt (z : Z) | NFloat (f : float).

Record timedelta := mkTimedelta {
  td_days : Z;
  td_seconds : Z;
  td_microseconds : Z }.

(** A decimal literal: [dec_digits / 10 ^ dec_places]. *)
Record Decimal := mkDecimal { dec_digits : Z; dec_places : nat }.

(** What [isodate.parse_duration] returns: a [timedelta], or a [Duration]
    when years or months are present. *)
Inductive duration_obj :=
| Timedelta (td : timedelta)
| Duration (years months : Decimal) (tdelta : timedelta).

Class Libraries := {
  (** [int(s)] on a string *)
  int_of_str : string -> option Z;
  (** the number [pd.to_numeric] reads from a string, if any *)
  to_numeric_str : string -> option number;
  (** the instant [pd.to_datetime] reads from a string, if any *)
  to_datetime_str : string -> option Timestamp;
  (** [isodate.parse_duration(s)] on a string *)
  parse_duration_str : string -> Outcome duration_obj;
  (** [TextBlob(s).sentiment.polarity] *)
  polarity : string -> float }.

(** [timedelta.total_seconds()]: exact up to 2^53 microseconds. *)
Definition td_total_seconds (td : timedelta) : float :=
  PrimFloat.div
    (Z2float ((td_days td * 86400 + td_seconds td) * 10 ^ 6 + td_microseconds td))
    (Z2float (10 ^ 6)).

(** [Duration] hands unknown attributes to its [tdelta], so
    [total_seconds()] leaves years and months out. *)
Definition total_seconds (d : duration_obj) : float :=
  match d with
  | Timedelta td => td_total_seconds td
  | Duration _ _ td => td_total_seconds td
  end.

(** [",".join(parts)] *)
Fixpoint join (sep : string) (parts : list string) : string :=
  match parts with
  | [] => ""
  | [p] => p
  | p :: rest => p +:+ sep +:+ join sep rest
  end.

(** [xs[i:j]] for [0 <= i <= j] *)
Definition slice {A} (xs : list A) (i j : nat) : list A :=
  firstn (j - i) (skipn i xs).

(** [range(start, stop, step)] for a positive [step], as the loop runs it. *)
Fixpoint range_from (fuel i stop step : nat) : list nat :=
  match fuel with
  | O => []
  | S fuel' =>
      if (i <? stop)%nat then i :: range_from fuel' (i + step) stop step else []
  end.

Definition py_range (start stop step : nat) : list nat :=
  range_from stop start stop step.

(** ** The world and the monad of the methods *)

(** A table with arbitrary labels, row-major: what [pd.DataFrame(rows,
    columns=...)] and [pd.DataFrame(dict_of_lists)] build. *)
Inductive table : Type :=
| Frame (df : DataFrame)
| Grid (labels : list pyval) (body : list (list pyval)).

Record World (PState : Type) := mkWorld {
  provider : PState;
  requests : list request;
  log : list log_record;
  files : list (string * table) }.
Arguments mkWorld {PState} provider requests log files.
Arguments provider {PState} w.
Arguments requests {PState} w.
Arguments log {PState} w.
Arguments files {PState} w.

Definition M (PState A : Type) : Type := World PState -> Outcome A * World PState.

Definition ret {PState A} (a : A) : M PState A := fun w => (Return a, w).

Definition bind {PState A B} (c : M PState A) (k : A -> M PState B) : M PState B :=
  fun w =>
    match c w with
    | (Return a, w') => k a w'
    | (Raise e, w') => (Raise e, w')
    | (OutOfFuel, w') => (OutOfFuel, w')
    end.

Definition lift {PState A} (o : Outcome A) : M PState A := fun w => (o, w).

Definition out_of_fuel {PState A} : M PState A := fun w => (OutOfFuel, w).

(** [logging.info] and [logging.error] *)
Definition logging {PState} (lvl : level) (text : string) (args : list pyval)
  : M PState unit :=
  fun w =>
    (Return tt,
     mkWorld (provider w) (requests w) (log w ++ [LogRecord lvl text args]) (files w)).

(** [df.to_csv(name, index=False)] *)
Definition to_csv {PState} (t : table) (name : string) : M PState unit :=
  fun w =>
    (Return tt, mkWorld (provider w) (requests w) (log w) (files w ++ [(name, t)])).

(** [request.execute()]: the request goes out and the provider answers. *)
Definition execute {PState A} (req : request)
  (call : PState -> Reply A * PState) : M PState (Reply A) :=
  fun w =>
    let (reply, p') := call (provider w) in
    (Return reply, mkWorld p' (requests w ++ [req]) (log w) (files w)).

Notation "'let!' x ':=' c 'in' k" := (bind c (fun x => k))
  (at level 10, x name, c at level 100, k at level 200).
Notation "'run!' c 'in' k" := (bind c (fun _ => k))
  (at level 10, c at level 100, k at level 200).
Notation "'let?' x ':=' c 'in' k" := (obind c (fun x => k))
  (at level 10, x name, c at level 100, k at level 200).

(** [for x in xs: body] in the monad. *)
Fixpoint mfold {PState A S} (f : S -> A -> M PState S) (xs : list A) (acc : S)
  : M PState S :=
  match xs with
  | [] => ret acc
  | x :: xs' => let! acc' := f acc x in mfold f xs' acc'
  end.

(** [obj[key]] where the key may be missing. *)
Definition getitem {A} (field : option A) (key : string) : Outcome A :=
  match field with
  | Some a => Return a
  | None => Raise (KeyError key)
  end.

(** The object.  [__init__] sets [youtube] (the provider, kept in the world)
    and nothing else: [analytics_credentials] is [None] here while the object
    has no such attribute, and [Some PNone] when it is set to Python's
    [None]. *)
Record YouTubeAnalytics := { analytics_credentials : option pyval }.

Definition YOUTUBE_CHANNEL_IDS : list string :=
  ["UCttspZesZIDEwwpVIgoZtWQ"; "UCRWFSbif-RFENbBrSiez1DA"].

(** Module start-up: the API key of the environment is required. *)
Definition module_init {PState} (YOUTUBE_API_KEY : option string) : M PState string :=
  match YOUTUBE_API_KEY with
  | Some key =>
      if String.eqb key "" then
        run! logging ERROR "Missing YOUTUBE_API_KEY environment variable!" [] in
        lift (Raise (ValueError
          "Set the YOUTUBE_API_KEY environment variable with your YouTube API key."))
      else ret key
  | None =>
      run! logging ERROR "Missing YOUTUBE_API_KEY environment variable!" [] in
      lift (Raise (ValueError
        "Set the YOUTUBE_API_KEY environment variable with your YouTube API key."))
  end.

(** ** The methods of [YouTubeAnalytics] *)

Section Methods.
Context {PState : Type} {client : Provider PState} {libs : Libraries}.

(** [int(x)] *)
Definition py_int (v : pyval) : Outcome Z :=
  match v with
  | PInt z => Return z
  | PFloat f =>
      match float_trunc f with
      | Some z => Return z
      | None =>
          if PrimFloat.is_nan f
          then Raise (ValueError "cannot convert float NaN to integer")
          else Raise (OverflowError "cannot convert float infinity to integer")
      end
  | PStr s =>
      match int_of_str s with
      | Some z => Return z
      | None => Raise (ValueError "invalid literal for int() with base 10")
      end
  | _ => Raise (TypeError "int() argument must be a string or a real number")
  end.

(** The dict literal of [get_channel_stats], evaluated field by field. *)
Definition channel_record (item : ChannelItem) : Outcome dict :=
  let? snippet := getitem (ch_snippet item) "snippet" in
  let? statistics := getitem (ch_statistics item) "statistics" in
  let? subscriberCount :=
    py_int (dict_get_default statistics "subscriberCount" (PInt 0)) in
  let? viewCount := py_int (dict_get_default statistics "viewCount" (PInt 0)) in
  let? videoCount := py_int (dict_get_default statistics "videoCount" (PInt 0)) in
  let? contentDetails := getitem (ch_contentDetails item) "contentDetails" in
  let? related := getitem (relatedPlaylists contentDetails) "relatedPlaylists" in
  Return [ ("channelId", ch_id item);
           ("channelName", dict_get snippet "title");
           ("publishedAt", dict_get snippet "publishedAt");
           ("subscriberCount", PInt subscriberCount);
           ("viewCount", PInt viewCount);
           ("videoCount", PInt videoCount);
           ("uploadsPlaylistId", dict_get related "uploads") ].

Definition get_channel_stats (self : YouTubeAnalytics) (channel_ids : list string)
  : M PState DataFrame :=
  let part := "snippet,contentDetails,statistics" in
  let id := join "," channel_ids in
  let! reply := execute (ChannelsList part id) (channels_list part id) in
  match reply with
  | Ok response =>
      let! all_data :=
        lift (ofold (fun all_data item =>
                       let? data := channel_record item in
                       Return (all_data ++ [data]))
                    (default [] (items response)) []) in
      ret (frame_of_records all_data)
  | Failed status content =>
      run! logging ERROR "YouTube API error while fetching channel stats: {} - {}"
             [PInt status; PStr content] in
      ret (frame_of_records [])
  end.

(** The body of [for item in response.get('items', [])] in [get_video_ids]. *)
Definition collect_video_id (video_ids : list pyval) (item : PlaylistItem)
  : Outcome (list pyval) :=
  let? contentDetails := getitem (pi_contentDetails item) "contentDetails" in
  let vid := dict_get contentDetails "videoId" in
  if truthy vid then Return (video_ids ++ [vid]) else Return video_ids.

(** [if not next_page_token: break] *)
Definition token_truthy (tok : option string) : bool :=
  match tok with
  | Some t => negb (String.eqb t "")
  | None => false
  end.

(** The [while True] loop of [get_video_ids]; one unit of fuel per page. *)
Fixpoint get_video_ids_loop (fuel : nat) (playlist_id : pyval)
  (next_page_token : option string) (video_ids : list pyval)
  : M PState (list pyval) :=
  match fuel with
  | O => out_of_fuel
  | S fuel' =>
      let! reply :=
        execute (PlaylistItemsList "contentDetails" playlist_id 50 next_page_token)
          (playlistItems_list "contentDetails" playlist_id 50 next_page_token) in
      match reply with
      | Ok response =>
          let! video_ids' :=
            lift (ofold collect_video_id (default [] (items response)) video_ids) in
          let next_page_token' := nextPageToken response in
          if token_truthy next_page_token'
          then get_video_ids_loop fuel' playlist_id next_page_token' video_ids'
          else ret video_ids'
      | Failed status content =>
          run! logging ERROR "Error fetching video IDs from playlist {}: {} - {}"
                 [playlist_id; PInt status; PStr content] in
          ret video_ids
      end
  end.

Definition get_video_ids (fuel : nat) (self : YouTubeAnalytics) (playlist_id : pyval)
  : M PState (list pyval) :=
  get_video_ids_loop fuel playlist_id None [].

Definition stats_to_keep : list (string * list string) :=
  [ ("snippet", ["channelTitle"; "title"; "description"; "tags"; "publishedAt"]);
    ("statistics", ["viewCount"; "likeCount"; "favoriteCount"; "commentCount"]);
    ("contentDetails", ["duration"; "definition"; "caption"]) ].

(** [video.get(section, {})] *)
Fixpoint video_get (parts : list (string * dict)) (section : string) : dict :=
  match parts with
  | [] => []
  | (name, d) :: parts' => if String.eqb name section then d else video_get parts' section
  end.

(** The row built for one video of the response. *)
Definition video_info_of (video : VideoItem) : dict :=
  fold_left
    (fun video_info section_keys =>
       fold_left
         (fun video_info key =>
            dict_set video_info key
              (dict_get (video_get (vi_parts video) (fst section_keys)) key))
         (snd section_keys) video_info)
    stats_to_keep [("video_id", vi_id video)].

(** [",".join(ids)] raises on an element that is not a string. *)
Fixpoint str_items (vs : list pyval) : Outcome (list string) :=
  match vs with
  | [] => Return []
  | PStr s :: vs' => let? rest := str_items vs' in Return (s :: rest)
  | _ :: _ => Raise (TypeError "sequence item: expected str instance")
  end.

Definition join_ids (vs : list pyval) : Outcome string :=
  let? parts := str_items vs in Return (join "," parts).

(** One turn of [for i in range(0, len(video_ids), 50)]. *)
Definition fetch_chunk (video_ids : list pyval) (all_video_info : list dict) (i : nat)
  : M PState (list dict) :=
  let part := "snippet,contentDetails,statistics" in
  let! id := lift (join_ids (slice video_ids i (i + 50))) in
  let! reply := execute (VideosList part id) (videos_list part id) in
  match reply with
  | Ok response =>
      ret (fold_left (fun all_video_info video => all_video_info ++ [video_info_of video])
             (default [] (items response)) all_video_info)
  | Failed status content =>
      run! logging ERROR "Error fetching video details: {} - {}"
             [PInt status; PStr content] in
      ret all_video_info
  end.

Definition get_video_details (self : YouTubeAnalytics) (video_ids : list pyval)
  : M PState DataFrame :=
  let! all_video_info :=
    mfold (fetch_chunk video_ids) (py_range 0 (length video_ids) 50) [] in
  ret (frame_of_records all_video_info).

Definition live_video_of (item : SearchItem) : Outcome pyval :=
  let? id := getitem (si_id item) "id" in
  let? snippet := getitem (si_snippet item) "snippet" in
  Return (PDict [ ("videoId", dict_get id "videoId");
                  ("title", dict_get snippet "title");
                  ("publishedAt", dict_get snippet "publishedAt") ]).

Definition get_live_streams (self : YouTubeAnalytics) (channel_id : pyval)
  (max_results : Z) : M PState (list pyval) :=
  let! reply :=
    execute (SearchList "snippet" channel_id "live" "video" max_results)
      (search_list "snippet" channel_id "live" "video" max_results) in
  match reply with
  | Ok response =>
      lift (ofold (fun live_videos item =>
                     let? live_video := live_video_of item in
                     Return (live_videos ++ [live_video]))
                  (default [] (items response)) [])
  | Failed status content =>
      run! logging ERROR "Error fetching live streams for channel {}: {} - {}"
             [channel_id; PInt status; PStr content] in
      ret []
  end.

End Methods.

(** ** Enrichment: [preprocess_video_data] *)

Section Enrichment.
Context {libs : Libraries}.

(** [pd.to_numeric(col, errors='coerce')], cell by cell: [None] is NaN.
    Cells that are neither null, numbers nor strings coerce to NaN.  The
    model is per cell and integers are unbounded: the rounding of a column
    that mixes NaN with integers beyond 2^53, and [int64] overflow, are left
    out. *)
Definition to_numeric_coerce (v : pyval) : option number :=
  match v with
  | PInt z => Some (NInt z)
  | PFloat f => if PrimFloat.is_nan f then None else Some (NFloat f)
  | PStr s => to_numeric_str s
  | _ => None
  end.

(** [.fillna(0)] *)
Definition fillna (fill : number) (o : option number) : number := default fill o.

(** [.astype(int)]: floats are truncated, infinities refused. *)
Definition astype_int (n : number) : Outcome pyval :=
  match n with
  | NInt z => Return (PInt z)
  | NFloat f =>
      match float_trunc f with
      | Some z => Return (PInt z)
      | None => Raise (ValueError "Cannot convert non-finite values (NA or inf) to integer")
      end
  end.

Definition coerce_count (v : pyval) : Outcome pyval :=
  astype_int (fillna (NInt 0) (to_numeric_coerce v)).

(** [pd.to_datetime(col, errors='coerce')], cell by cell: [PNone] is NaT. *)
Definition to_datetime_coerce (v : pyval) : pyval :=
  match v with
  | PStr s => match to_datetime_str s with Some t => PTime t | None => PNone end
  | PTime t => PTime t
  | _ => PNone
  end.

Definition day_names : list string :=
  ["Monday"; "Tuesday"; "Wednesday"; "Thursday"; "Friday"; "Saturday"; "Sunday"].

(** Day of the week of an instant, Monday = 0; the epoch was a Thursday. *)
Definition weekday (t : Timestamp) : Z :=
  (t / (86400 * 10 ^ 9) + 3) mod 7.

(** [.dt.day_name()], cell by cell, in the default (English) locale. *)
Definition day_name (v : pyval) : pyval :=
  match v with
  | PTime t => PStr (nth (Z.to_nat (weekday t)) day_names "")
  | _ => PNone
  end.

(** [isodate.parse_duration(x)] *)
Definition parse_duration (x : pyval) : Outcome duration_obj :=
  match x with
  | PStr s => parse_duration_str s
  | _ => Raise (TypeError "Expecting a string")
  end.

(** [lambda x: isodate.parse_duration(x).total_seconds() if pd.notnull(x) else None] *)
Definition duration_secs (x : pyval) : Outcome pyval :=
  if notnull x then
    let? d := parse_duration x in
    Return (PFloat (total_seconds d))
  else Return PNone.

(** [lambda x: len(x) if isinstance(x, list) else 0] *)
Definition tags_count (x : pyval) : pyval :=
  match x with
  | PList l => PInt (Z.of_nat (length l))
  | _ => PInt 0
  end.

(** [lambda x: len(x) if isinstance(x, str) else 0]; the length is counted
    in bytes, which is Python's length on ASCII titles. *)
Definition title_length (x : pyval) : pyval :=
  match x with
  | PStr s => PInt (Z.of_nat (String.length s))
  | _ => PInt 0
  end.

Definition as_float (v : pyval) : option float :=
  match v with
  | PInt z => Some (Z2float z)
  | PFloat f => Some f
  | _ => None
  end.

Definition is_zero (v : pyval) : bool :=
  match v with
  | PInt z => z =? 0
  | PFloat f => PrimFloat.eqb f 0%float
  | _ => false
  end.

(** [a / b] on numbers, as Python divides; exact on integers below 2^53.
    The ratio lambda never reaches the zero divisor. *)
Definition py_truediv (a b : pyval) : Outcome pyval :=
  match as_float a, as_float b with
  | Some x, Some y =>
      if is_zero b then Raise ZeroDivisionError
      else Return (PFloat (PrimFloat.div x y))
  | _, _ => Raise (TypeError "unsupported operand type(s) for /")
  end.

(** [a * b] on numbers. *)
Definition py_mul (a b : pyval) : Outcome pyval :=
  match a, b with
  | PInt x, PInt y => Return (PInt (x * y))
  | _, _ =>
      match as_float a, as_float b with
      | Some x, Some y => Return (PFloat (PrimFloat.mul x y))
      | _, _ => Raise (TypeError "unsupported operand type(s) for *")
      end
  end.

(** [lambda row: (row[count] / row['viewCount'] * 1000) if row['viewCount'] else 0] *)
Definition ratio (count : string) (df : DataFrame) (row : gmap string pyval)
  : Outcome pyval :=
  let? guard := row_getitem df row "viewCount" in
  if truthy guard then
    let? c := row_getitem df row count in
    let? v := row_getitem df row "viewCount" in
    let? q := py_truediv c v in
    py_mul q (PInt 1000)
  else Return (PInt 0).

(** [series.apply(f)] *)
Definition series_apply (f : pyval -> Outcome pyval) (s : Series) : Outcome Series :=
  let? results := omap f s in Return (series_of_results results).

(** [df.apply(f, axis=1)] *)
Definition frame_apply (f : DataFrame -> gmap string pyval -> Outcome pyval)
  (df : DataFrame) : Outcome Series :=
  let? results := omap (f df) (rows df) in Return (series_of_results results).

Definition numeric_cols : list string :=
  ["viewCount"; "likeCount"; "favoriteCount"; "commentCount"].

(** One turn of [for col in numeric_cols]. *)
Definition coerce_column (video_df : DataFrame) (col : string) : Outcome DataFrame :=
  let? s := df_getitem video_df col in
  let? s := omap coerce_count s in
  Return (df_setitem video_df col s).

Definition preprocess_video_data (self : YouTubeAnalytics) (video_df : DataFrame)
  : Outcome DataFrame :=
  let? video_df := ofold coerce_column numeric_cols video_df in
  let? s := df_getitem video_df "publishedAt" in
  let video_df := df_setitem video_df "publishedAt" (map to_datetime_coerce s) in
  let? s := df_getitem video_df "publishedAt" in
  let video_df := df_setitem video_df "publishDayName" (map day_name s) in
  let? s := df_getitem video_df "duration" in
  let? s := series_apply duration_secs s in
  let video_df := df_setitem video_df "durationSecs" s in
  let? s := df_getitem video_df "tags" in
  let video_df := df_setitem video_df "tagsCount" (map tags_count s) in
  let? s := frame_apply (ratio "likeCount") video_df in
  let video_df := df_setitem video_df "likeRatio" s in
  let? s := frame_apply (ratio "commentCount") video_df in
  let video_df := df_setitem video_df "commentRatio" s in
  let? s := df_getitem video_df "title" in
  let video_df := df_setitem video_df "titleLength" (map title_length s) in
  Return video_df.

(** [analyze_sentiment(text)]: [TextBlob] refuses what is not a string. *)
Definition analyze_sentiment (text : pyval) : Outcome pyval :=
  match text with
  | PStr s => Return (PFloat (polarity s))
  | _ => Raise (TypeError "The `text` argument passed to `__init__(text)` must be a string")
  end.

End Enrichment.

(** ** Audience insights and the orchestrator *)

(** [pd.DataFrame(rows, columns=headers)]: short rows are padded with nulls
    and the widest row must be as wide as the header. *)
Definition pad_row (width : nat) (r : list pyval) : list pyval :=
  r ++ repeat PNone (width - length r).

Definition grid_of_rows (headers : list pyval) (body : list (list pyval))
  : Outcome table :=
  let width := fold_right (fun r w => Nat.max (length r) w) O body in
  if Nat.eqb width (length headers)
  then Return (Grid headers (map (pad_row width) body))
  else Raise (ValueError "columns passed do not match the data").

(** Keys of a Python [dict] must be hashable. *)
Definition hashable (k : pyval) : bool :=
  match k with
  | PList _ | PDict _ => false
  | _ => true
  end.

Definition key_eqb (a b : pyval) : bool :=
  match a, b with
  | PNone, PNone => true
  | PInt x, PInt y => x =? y
  | PFloat x, PFloat y => PrimFloat.eqb x y
  | PInt x, PFloat y | PFloat y, PInt x => PrimFloat.eqb (Z2float x) y
  | PStr x, PStr y => String.eqb x y
  | PTime x, PTime y => x =? y
  | _, _ => false
  end.

Fixpoint keyed_set {A} (d : list (pyval * A)) (k : pyval) (v : A) : list (pyval * A) :=
  match d with
  | [] => [(k, v)]
  | (k', v') :: d' =>
      if key_eqb k' k then (k', v) :: d' else (k', v') :: keyed_set d' k v
  end.

(** [d[k] = v] for a dict with arbitrary keys. *)
Definition keyed_setitem {A} (d : list (pyval * A)) (k : pyval) (v : A)
  : Outcome (list (pyval * A)) :=
  if hashable k then Return (keyed_set d k v)
  else Raise (TypeError "unhashable type").

(** [pd.DataFrame(d)] for a dict of lists: all lists must be equally long. *)
Definition grid_of_columns (d : list (pyval * list pyval)) : Outcome table :=
  match d with
  | [] => Return (Grid [] [])
  | (_, first) :: _ =>
      let n := length first in
      if forallb (fun kv => Nat.eqb (length (snd kv)) n) d
      then Return (Grid (map fst d)
                     (map (fun i => map (fun kv => nth i (snd kv) PNone) d) (seq 0 n)))
      else Raise (ValueError "All arrays must be of the same length")
  end.

Section Orchestrator.
Context {PState : Type} {client : Provider PState} {libs : Libraries}.

(** The table of one report: [pd.DataFrame(rows, columns=headers) if rows
    else pd.DataFrame()]. *)
Definition report_table (response : Report) : Outcome table :=
  let? headers :=
    omap (fun header => getitem (dict_lookup header "name") "name")
         (default [] (columnHeaders response)) in
  match default [] (report_rows response) with
  | [] => Return (Frame empty_frame)
  | body => grid_of_rows headers body
  end.

(** [reports().query(...).execute()] outside any [try]: [HttpError] escapes. *)
Definition query_report (channel_id start_date end_date : pyval)
  (dimensions : string) : M PState Report :=
  let! reply :=
    execute
      (ReportsQuery channel_id start_date end_date "viewerPercentage" dimensions dimensions)
      (reports_query channel_id start_date end_date "viewerPercentage" dimensions dimensions) in
  match reply with
  | Ok response => ret response
  | Failed status content => lift (Raise (HttpError status content))
  end.

Definition get_audience_insights (self : YouTubeAnalytics)
  (channel_id start_date end_date : pyval) : M PState (table * table) :=
  match analytics_credentials self with
  | None | Some PNone =>
      lift (Raise (ValueError
        "OAuth2 credentials for YouTube Analytics are required for audience insights."))
  | Some _ =>
      let! demographics_response :=
        query_report channel_id start_date end_date "ageGroup,gender" in
      let! demographics_df := lift (report_table demographics_response) in
      let! geography_response :=
        query_report channel_id start_date end_date "country" in
      let! geography_df := lift (report_table geography_response) in
      ret (demographics_df, geography_df)
  end.

(** One turn of the first [for _, row in channel_stats.iterrows()]. *)
Definition collect_channel (fuel : nat) (yt_analytics : YouTubeAnalytics)
  (channel_stats : DataFrame) (all_videos_df : DataFrame)
  (row : gmap string pyval) : M PState DataFrame :=
  let! channel_name := lift (row_getitem channel_stats row "channelName") in
  let! playlist_id := lift (row_getitem channel_stats row "uploadsPlaylistId") in
  run! logging INFO "Processing channel: {}" [channel_name] in
  let! video_ids := get_video_ids fuel yt_analytics playlist_id in
  run! logging INFO "Found {} videos for channel: {}"
         [PInt (Z.of_nat (length video_ids)); channel_name] in
  match video_ids with
  | [] => ret all_videos_df
  | _ =>
      let! channel_videos := get_video_details yt_analytics video_ids in
      ret (concat_frames all_videos_df channel_videos)
  end.

(** One turn of the second loop over the channels. *)
Definition probe_channel (yt_analytics : YouTubeAnalytics)
  (channel_stats : DataFrame) (live_streams_data : list (pyval * list pyval))
  (row : gmap string pyval) : M PState (list (pyval * list pyval)) :=
  let! channel_id := lift (row_getitem channel_stats row "channelId") in
  let! live_streams := get_live_streams yt_analytics channel_id 5 in
  let! channel_name := lift (row_getitem channel_stats row "channelName") in
  lift (keyed_setitem live_streams_data channel_name live_streams).

(** [main()]; [fuel] bounds the pages read per channel. *)
Definition main (fuel : nat) : M PState unit :=
  let yt_analytics := {| analytics_credentials := None |} in
  run! logging INFO "Collecting YouTube channel statistics..." [] in
  let! channel_stats := get_channel_stats yt_analytics YOUTUBE_CHANNEL_IDS in
  run! logging INFO "Retrieved statistics for {} channels."
         [PInt (Z.of_nat (length (rows channel_stats)))] in
  let! all_videos_df :=
    mfold (collect_channel fuel yt_analytics channel_stats)
          (rows channel_stats) empty_frame in
  run! logging INFO "Preprocessing video data..." [] in
  let! all_videos_df := lift (preprocess_video_data yt_analytics all_videos_df) in
  run! logging INFO "Performing sentiment analysis on video titles..." [] in
  let! titles := lift (df_getitem all_videos_df "title") in
  let! sentiment := lift (series_apply analyze_sentiment titles) in
  let all_videos_df := df_setitem all_videos_df "titleSentiment" sentiment in
  let! live_streams_data :=
    mfold (probe_channel yt_analytics channel_stats) (rows channel_stats) [] in
  run! logging INFO "Live stream data collected." [] in
  run! to_csv (Frame all_videos_df) "youtube_video_data.csv" in
  let! live_table := lift (grid_of_columns live_streams_data) in
  run! to_csv live_table "youtube_live_streams.csv" in
  run! logging INFO "YouTube data collection complete. CSV files saved." [] in
  run! logging INFO "Sample video data:" [] in
  (* [all_videos_df.head()]: the first five rows, named by their ids *)
  logging INFO "{}" [PList (map (fun r => cell r "video_id") (firstn 5 (rows all_videos_df)))].

End Orchestrator.

(** ** Reference libraries

    Parsers for the formats the provider emits, used to run the model on
    concrete inputs.  They are narrower than the libraries: [int] and
    [pd.to_numeric] also read blanks, fractions and exponents,
    [pd.to_datetime] many more date formats, and [isodate] an alternative
    [P<date>T<time>] format; none of the inputs below is of those kinds. *)

Module Reference.

Definition digit_of (c : ascii) : option Z :=
  let n := Z.of_N (N_of_ascii c) in
  if (48 <=? n) && (n <=? 57) then Some (n - 48) else None.

(** Longest prefix of decimal digits: its value, its length and the rest. *)
Fixpoint read_digits (s : list ascii) (acc : Z) (count : nat)
  : Z * nat * list ascii :=
  match s with
  | c :: s' =>
      match digit_of c with
      | Some d => read_digits s' (10 * acc + d) (S count)
      | None => (acc, count, s)
      end
  | [] => (acc, count, [])
  end.

(** An optional sign and at least one digit, nothing else. *)
Definition signed_decimal (s : string) : option Z :=
  let cs := list_ascii_of_string s in
  let '(neg, body) :=
    match cs with
    | "-"%char :: r => (true, r)
    | "+"%char :: r => (false, r)
    | _ => (false, cs)
    end in
  match read_digits body 0 O with
  | (_, O, _) => None
  | (v, S _, []) => Some (if neg then - v else v)
  | (_, S _, _ :: _) => None
  end.

(** Days from 1970-01-01 to a date of the proleptic Gregorian calendar. *)
Definition days_from_civil (y m d : Z) : Z :=
  let y' := if m <=? 2 then y - 1 else y in
  let era := y' / 400 in
  let yoe := y' - era * 400 in
  let doy := (153 * (if 2 <? m then m - 3 else m + 9) + 2) / 5 + d - 1 in
  let doe := yoe * 365 + yoe / 4 - yoe / 100 + doy in
  era * 146097 + doe - 719468.

Definition is_leap (y : Z) : bool :=
  ((y mod 4 =? 0) && negb (y mod 100 =? 0)) || (y mod 400 =? 0).

Definition days_in_month (y m : Z) : Z :=
  if m =? 2 then (if is_leap y then 29 else 28)
  else if (m =? 4) || (m =? 6) || (m =? 9) || (m =? 11) then 30 else 31.

(** Exactly [n] digits. *)
Definition fixed_digits (n : nat) (s : list ascii) : option (Z * list ascii) :=
  match read_digits (firstn n s) 0 O with
  | (v, k, []) => if Nat.eqb k n then Some (v, skipn n s) else None
  | _ => None
  end.

Definition expect (c : ascii) (s : list ascii) : option (list ascii) :=
  match s with
  | c' :: s' => if Ascii.eqb c c' then Some s' else None
  | [] => None
  end.

(** [YYYY-MM-DDTHH:MM:SSZ], within the range of [datetime64[ns]]. *)
Definition rfc3339_utc (s : string) : option Timestamp :=
  '(y, s) ← fixed_digits 4 (list_ascii_of_string s);
  s ← expect "-" s;
  '(m, s) ← fixed_digits 2 s;
  s ← expect "-" s;
  '(d, s) ← fixed_digits 2 s;
  s ← expect "T" s;
  '(hh, s) ← fixed_digits 2 s;
  s ← expect ":" s;
  '(mm, s) ← fixed_digits 2 s;
  s ← expect ":" s;
  '(ss, s) ← fixed_digits 2 s;
  s ← expect "Z" s;
  match s with
  | [] =>
      let t := ((days_from_civil y m d * 86400 + hh * 3600 + mm * 60 + ss) * 10 ^ 9) in
      if (1 <=? m) && (m <=? 12) && (1 <=? d) && (d <=? days_in_month y m)
         && (hh <? 24) && (mm <? 60) && (ss <? 60)
         && (- 2 ^ 63 <? t) && (t <? 2 ^ 63)
      then Some t else None
  | _ :: _ => None
  end.

(** One amount of a duration, [[0-9]+([,.][0-9]+)?], and its designator. *)
Definition read_amount (designator : ascii) (s : list ascii)
  : option (Decimal * list ascii) :=
  match read_digits s 0 O with
  | (_, O, _) => None
  | (whole, S _, rest) =>
      match rest with
      | sep :: rest' =>
          if Ascii.eqb sep "." || Ascii.eqb sep "," then
            match read_digits rest' 0 O with
            | (_, O, _) => None
            | (frac, S k, rest'') =>
                rest'' ← expect designator rest'';
                Some (mkDecimal (whole * 10 ^ Z.of_nat (S k) + frac) (S k), rest'')
            end
          else
            rest' ← expect designator rest;
            Some (mkDecimal whole 0, rest')
      | [] => None
      end
  end.

(** An optional group of the pattern: absent reads as zero. *)
Definition field (designator : ascii) (s : list ascii) : Decimal * list ascii :=
  match read_amount designator s with
  | Some (d, rest) => (d, rest)
  | None => (mkDecimal 0 0, s)
  end.

Definition word_char (c : ascii) : bool :=
  let n := Z.of_N (N_of_ascii c) in
  ((48 <=? n) && (n <=? 57)) || ((65 <=? n) && (n <=? 90))
  || ((97 <=? n) && (n <=? 122)) || (n =? 95).

Record period := mkPeriod {
  p_negative : bool;
  p_years : Decimal; p_months : Decimal; p_weeks : Decimal; p_days : Decimal;
  p_hours : Decimal; p_minutes : Decimal; p_seconds : Decimal }.

(** [ISO8601_PERIOD_REGEX.match]: sign, [P] not followed by a word boundary,
    the date amounts, [T] and the time amounts, up to the end of the string
    or its last line feed. *)
Definition match_period (s : string) : option period :=
  let cs := list_ascii_of_string s in
  let '(neg, cs) :=
    match cs with
    | "-"%char :: r => (true, r)
    | "+"%char :: r => (false, r)
    | _ => (false, cs)
    end in
  cs ← expect "P" cs;
  if match cs with c :: _ => word_char c | [] => false end then
    let '(years, cs) := field "Y" cs in
    let '(months, cs) := field "M" cs in
    let '(weeks, cs) := field "W" cs in
    let '(days, cs) := field "D" cs in
    let '(hours, minutes, seconds, cs) :=
      match expect "T" cs with
      | Some cs =>
          let '(hours, cs) := field "H" cs in
          let '(minutes, cs) := field "M" cs in
          let '(seconds, cs) := field "S" cs in
          (hours, minutes, seconds, cs)
      | None => (mkDecimal 0 0, mkDecimal 0 0, mkDecimal 0 0, cs)
      end in
    match cs with
    | [] | ["010"%char] =>
        Some (mkPeriod neg years months weeks days hours minutes seconds)
    | _ => None
    end
  else None.

Definition round_half_even (n d : Z) : Z :=
  let q := n / d in
  let r := n mod d in
  if 2 * r <? d then q
  else if d <? 2 * r then q + 1
  else if Z.even q then q else q + 1.

(** Microseconds of [amount] units of [unit] seconds, as a fraction over
    [10 ^ places]. *)
Definition scaled (places : nat) (unit : Z) (amount : Decimal) : Z :=
  dec_digits amount * 10 ^ Z.of_nat (places - dec_places amount) * unit * 10 ^ 6.

(** The microseconds [timedelta(days, hours, minutes, seconds, weeks)]
    keeps: the exact sum rounded half to even.  The library adds binary
    floats; on whole amounts the two agree. *)
Definition period_microseconds (p : period) : Z :=
  let places :=
    fold_right Nat.max O
      (map dec_places [p_weeks p; p_days p; p_hours p; p_minutes p; p_seconds p]) in
  round_half_even
    (scaled places 604800 (p_weeks p) + scaled places 86400 (p_days p)
     + scaled places 3600 (p_hours p) + scaled places 60 (p_minutes p)
     + scaled places 1 (p_seconds p))
    (10 ^ Z.of_nat places).

(** A [timedelta] of so many microseconds: normalised, at most 999999999
    days either way. *)
Definition timedelta_of (us : Z) : Outcome timedelta :=
  let days := us / 86400000000 in
  let rest := us mod 86400000000 in
  if (days <? -999999999) || (999999999 <? days)
  then Raise (OverflowError "days out of range for timedelta")
  else Return (mkTimedelta days (rest / 1000000) (rest mod 1000000)).

Definition negate (d : Decimal) : Decimal :=
  mkDecimal (- dec_digits d) (dec_places d).

(** [isodate.parse_duration] on a string, designator format. *)
Definition parse_period (s : string) : Outcome duration_obj :=
  match match_period s with
  | None => Raise (ISO8601Error "Unable to parse duration string")
  | Some p =>
      let us := period_microseconds p in
      let? ret := timedelta_of us in
      let? td := if p_negative p then timedelta_of (- us) else Return ret in
      if (dec_digits (p_years p) =? 0) && (dec_digits (p_months p) =? 0)
      then Return (Timedelta td)
      else if p_negative p
           then Return (Duration (negate (p_years p)) (negate (p_months p)) td)
           else Return (Duration (p_years p) (p_months p) td)
  end.

#[export] Instance libraries : Libraries := {|
  int_of_str := signed_decimal;
  to_numeric_str := fun s => NInt <$> signed_decimal s;
  to_datetime_str := rfc3339_utc;
  parse_duration_str := parse_period;
  polarity := fun _ => 0%float |}.

End Reference.

(** * Vocabulary of the properties *)

(** ** Rows before and after enrichment *)

Section RowLaws.
Context {libs : Libraries}.

(** The ratio lambda on the two cells it reads. *)
Definition ratio_of (count view : pyval) : Outcome pyval :=
  if truthy view then
    let? q := py_truediv count view in
    py_mul q (PInt 1000)
  else Return (PInt 0).

(** A value that reached the frame through a numeric series: itself, or
    its float when the series has floats. *)
Definition stored (q v : pyval) : Prop := v = q \/ v = upcast q.

(** Row [r'] of the enriched frame against row [r] of the input. *)
Record enriched (r r' : gmap string pyval) : Prop := {
  enr_viewCount : coerce_count (cell r "viewCount") = Return (cell r' "viewCount");
  enr_likeCount : coerce_count (cell r "likeCount") = Return (cell r' "likeCount");
  enr_favoriteCount :
    coerce_count (cell r "favoriteCount") = Return (cell r' "favoriteCount");
  enr_commentCount :
    coerce_count (cell r "commentCount") = Return (cell r' "commentCount");
  enr_publishedAt : cell r' "publishedAt" = to_datetime_coerce (cell r "publishedAt");
  enr_publishDayName :
    cell r' "publishDayName" = day_name (to_datetime_coerce (cell r "publishedAt"));
  enr_durationSecs :
    exists q, duration_secs (cell r "duration") = Return q
              /\ stored q (cell r' "durationSecs");
  enr_tagsCount : cell r' "tagsCount" = tags_count (cell r "tags");
  enr_likeRatio :
    exists q, ratio_of (cell r' "likeCount") (cell r' "viewCount") = Return q
              /\ stored q (cell r' "likeRatio");
  enr_commentRatio :
    exists q, ratio_of (cell r' "commentCount") (cell r' "viewCount") = Return q
              /\ stored q (cell r' "commentRatio");
  enr_titleLength : cell r' "titleLength" = title_length (cell r "title") }.

(** The columns [preprocess_video_data] reads from its input. *)
Definition required_columns : list string :=
  ["viewCount"; "likeCount"; "favoriteCount"; "commentCount";
   "publishedAt"; "duration"; "tags"; "title"].







End RowLaws.

(** ** Chunks, replies and pages *)

(** Consecutive groups of at most [n] elements, in order. *)
Fixpoint chunks_fuel {A} (fuel n : nat) (l : list A) : list (list A) :=
  match fuel with
  | O => []
  | S fuel' =>
      match l with
      | [] => []
      | _ :: _ => firstn n l :: chunks_fuel fuel' n (skipn n l)
      end
  end.

Definition chunks {A} (n : nat) (l : list A) : list (list A) :=
  chunks_fuel (length l) n l.

Section Replies.
Context {PState : Type} {client : Provider PState}.

Definition details_part : string := "snippet,contentDetails,statistics".

(** The provider's replies to the requests for the given groups of ids,
    issued one after the other. *)
Fixpoint serve (groups : list (list string)) (p : PState)
  : list (Reply (Listing VideoItem)) * PState :=
  match groups with
  | [] => ([], p)
  | g :: groups' =>
      let (reply, p1) := videos_list details_part (join "," g) p in
      let (replies, p2) := serve groups' p1 in
      (reply :: replies, p2)
  end.

(** The rows a reply contributes: its videos in response order, none for a
    failure. *)
Definition reply_rows (reply : Reply (Listing VideoItem)) : list dict :=
  match reply with
  | Ok response => map video_info_of (default [] (items response))
  | Failed _ _ => []
  end.

(** The log lines a reply causes: one error line for a failure. *)
Definition reply_log (reply : Reply (Listing VideoItem)) : list log_record :=
  match reply with
  | Ok _ => []
  | Failed status content =>
      [LogRecord ERROR "Error fetching video details: {} - {}"
         [PInt status; PStr content]]
  end.

Definition detail_request (g : list string) : request :=
  VideosList details_part (join "," g).

Definition page_request (playlist_id : pyval) (tok : option string) : request :=
  PlaylistItemsList "contentDetails" playlist_id 50 tok.

(** The identifier an item contributes: its [videoId] when it has one that
    is not empty; nothing is defined for an item without [contentDetails]. *)
Definition item_video_ids (item : PlaylistItem) : option (list pyval) :=
  match pi_contentDetails item with
  | None => None
  | Some details =>
      Some (if truthy (dict_get details "videoId")
            then [dict_get details "videoId"] else [])
  end.

Fixpoint page_ids (page_items : list PlaylistItem) : option (list pyval) :=
  match page_items with
  | [] => Some []
  | item :: rest =>
      match item_video_ids item, page_ids rest with
      | Some a, Some b => Some (a ++ b)
      | _, _ => None
      end
  end.

(** The identifiers of a run of pages, in page order. *)
Fixpoint pages_ids (pages : list (Listing PlaylistItem)) : option (list pyval) :=
  match pages with
  | [] => Some []
  | page :: rest =>
      match page_ids (default [] (items page)), pages_ids rest with
      | Some a, Some b => Some (a ++ b)
      | _, _ => None
      end
  end.

(** [served pl p tok pages p' tok']: asked for the page at cursor [tok] in
    state [p], the provider answers [pages] one after the other, each with a
    cursor to the next, and is left in state [p'] with cursor [tok']. *)
Inductive served (pl : pyval)
  : PState -> option string -> list (Listing PlaylistItem) ->
    PState -> option string -> Prop :=
| served_none p tok : served pl p tok [] p tok
| served_page p tok page p1 rest p' tok' :
    playlistItems_list "contentDetails" pl 50 tok p = (Ok page, p1) ->
    token_truthy (nextPageToken page) = true ->
    served pl p1 (nextPageToken page) rest p' tok' ->
    served pl p tok (page :: rest) p' tok'.

Definition page_error (playlist_id : pyval) (status : Z) (content : string)
  : log_record :=
  LogRecord ERROR "Error fetching video IDs from playlist {}: {} - {}"
    [playlist_id; PInt status; PStr content].

End Replies.

(** ** Credentials *)



(** ** A scripted provider

    Each endpoint answers from its own list of replies, one per call; once
    the list is used up it answers 503. *)

Module Mock.

Record state := mkState {
  channels_script : list (Reply (Listing ChannelItem));
  playlists_script : list (Reply (Listing PlaylistItem));
  videos_script : list (Reply (Listing VideoItem));
  search_script : list (Reply (Listing SearchItem));
  reports_script : list (Reply Report) }.

Definition pop {A} (script : list (Reply A)) : Reply A * list (Reply A) :=
  match script with
  | [] => (Failed 503 "Service Unavailable", [])
  | reply :: rest => (reply, rest)
  end.

#[global] Instance provider : Provider state := {|
  channels_list := fun _ _ s =>
    let (reply, rest) := pop (channels_script s) in
    (reply, mkState rest (playlists_script s) (videos_script s) (search_script s)
              (reports_script s));
  playlistItems_list := fun _ _ _ _ s =>
    let (reply, rest) := pop (playlists_script s) in
    (reply, mkState (channels_script s) rest (videos_script s) (search_script s)
              (reports_script s));
  videos_list := fun _ _ s =>
    let (reply, rest) := pop (videos_script s) in
    (reply, mkState (channels_script s) (playlists_script s) rest (search_script s)
              (reports_script s));
  search_list := fun _ _ _ _ _ s =>
    let (reply, rest) := pop (search_script s) in
    (reply, mkState (channels_script s) (playlists_script s) (videos_script s) rest
              (reports_script s));
  reports_query := fun _ _ _ _ _ _ s =>
    let (reply, rest) := pop (reports_script s) in
    (reply, mkState (channels_script s) (playlists_script s) (videos_script s)
              (search_script s) rest) |}.

Definition world (s : state) : World state := mkWorld s [] [] [].

Definition video (id views : string) : VideoItem :=
  {| vi_id := PStr id;
     vi_parts :=
       [ ("snippet", [("title", PStr "Clip"); ("publishedAt", PStr "2024-03-11T12:00:00Z")]);
         ("statistics", [("viewCount", PStr views); ("likeCount", PStr "1")]);
         ("contentDetails", [("duration", PStr "PT15S")]) ] |}.

Definition page_one : Listing VideoItem :=
  mkListing (Some [video "a" "10"; video "b" "20"]) None.

Definition page_three : Listing VideoItem :=
  mkListing (Some [video "c" "30"]) None.

(** 120 identifiers: three chunks. *)
Definition many_ids : list string := repeat "dQw4w9WgXcQ" 120.

Definition second_chunk_fails : state :=
  mkState [] [] [Ok page_one; Failed 500 "backendError"; Ok page_three] [] [].

End Mock.

(** ** Fixtures *)

Definition yt : YouTubeAnalytics := {| analytics_credentials := None |}.

(** The value of an outcome that returned. *)
Definition the {A} (o : Outcome A) (dflt : A) : A :=
  match o with
  | Return a => a
  | _ => dflt
  end.

Definition video_row (id title published views likes comments duration : pyval)
  : dict :=
  [ ("video_id", id); ("channelTitle", PStr "News"); ("title", title);
    ("description", PNone); ("tags", PList [PStr "news"; PStr "live"]);
    ("publishedAt", published); ("viewCount", views); ("likeCount", likes);
    ("favoriteCount", PStr "0"); ("commentCount", comments);
    ("duration", duration); ("definition", PStr "hd"); ("caption", PStr "false") ].

(** Three videos as [get_video_details] tabulates them: a complete one, one
    without views, likes or duration and with a malformed date, and one
    with a negative count. *)
Definition sample_frame : DataFrame :=
  frame_of_records
    [ video_row (PStr "v1") (PStr "Budget day") (PStr "2024-03-11T12:00:00Z")
        (PStr "1000") (PStr "50") (PStr "7") (PStr "PT1H2M10S");
      video_row (PStr "v2") PNone (PStr "yesterday") PNone (PStr "many") (PStr "3") PNone;
      video_row (PStr "v3") (PStr "Recount") (PStr "2024-03-12T08:30:00Z")
        (PStr "-5") (PStr "2") (PStr "1") (PStr "PT15S") ].

Definition sample_enriched : DataFrame :=
  the (preprocess_video_data (libs := Reference.libraries) yt sample_frame) empty_frame.

(** One video whose duration is not ISO 8601. *)
Definition malformed_duration_frame : DataFrame :=
  frame_of_records
    [ video_row (PStr "v1") (PStr "Budget day") (PStr "2024-03-11T12:00:00Z")
        (PStr "1000") (PStr "50") (PStr "7") (PStr "PT1H2M10S");
      video_row (PStr "v4") (PStr "Clip") (PStr "2024-03-11T12:00:00Z")
        (PStr "10") (PStr "1") (PStr "0") (PStr "1:02:10") ].

Definition playlist_item (id : string) : PlaylistItem :=
  {| pi_contentDetails := Some [("videoId", PStr id); ("videoPublishedAt", PStr "2024-03-11T12:00:00Z")] |}.

(** An item with [contentDetails] but no [videoId] in it. *)
Definition item_without_id : PlaylistItem :=
  {| pi_contentDetails := Some [("videoPublishedAt", PStr "2024-03-11T12:00:00Z")] |}.

Definition first_page : Listing PlaylistItem :=
  mkListing (Some [playlist_item "a"; item_without_id; playlist_item "b"]) (Some "CAUQAA").

Definition second_page : Listing PlaylistItem :=
  mkListing (Some [playlist_item "c"]) (Some "CAoQAA").

Definition third_page_fails : Mock.state :=
  Mock.mkState [] [Ok first_page; Ok second_page; Failed 403 "quotaExceeded"] [] [] [].

Definition channel (id name : string) (uploads : dict) : ChannelItem :=
  {| ch_id := PStr id;
     ch_snippet := Some [("title", PStr name); ("publishedAt", PStr "2015-06-01T00:00:00Z")];
     ch_statistics :=
       Some [("viewCount", PStr "123456"); ("subscriberCount", PStr "789");
             ("videoCount", PStr "12")];
     ch_contentDetails := Some {| relatedPlaylists := Some uploads |} |}.

(** Both channels are listed, the first with an uploads playlist and the
    second without; every request for playlist items is refused. *)
Definition no_video_rows : Mock.state :=
  Mock.mkState
    [Ok (mkListing
           (Some [ channel "UCttspZesZIDEwwpVIgoZtWQ" "First" [("uploads", PStr "UUfirst")];
                   channel "UCRWFSbif-RFENbBrSiez1DA" "Second" [] ])
           None)]
    [Failed 403 "quotaExceeded"; Failed 400 "missingRequiredParameter"]
    [] [Ok (mkListing (Some []) None); Ok (mkListing (Some []) None)] [].

(** One channel with two videos: [main] completes and writes both tables. *)
Definition one_channel : Mock.state :=
  Mock.mkState
    [Ok (mkListing
           (Some [channel "UCttspZesZIDEwwpVIgoZtWQ" "First" [("uploads", PStr "UUfirst")]])
           None)]
    [Ok (mkListing (Some [playlist_item "a"; playlist_item "b"]) None)]
    [Ok Mock.page_one]
    [Ok (mkListing (Some []) None)] [].

(** ** Channel and live-stream rows *)

(** The labels of a row of [get_channel_stats], in the order of its dict
    literal. *)
Definition channel_labels : list string :=
  ["channelId"; "channelName"; "publishedAt"; "subscriberCount"; "viewCount";
   "videoCount"; "uploadsPlaylistId"].

Section ChannelRows.
Context {libs : Libraries}.

(** A count of [statistics] that [int] reads, 0 standing in for a missing
    key. *)
Definition count_readable (statistics : dict) (key : string) : Prop :=
  exists z, py_int (dict_get_default statistics key (PInt 0)) = Return z.

(** A channel item with every section the dict literal subscripts, and
    counts [int] reads. *)
Definition channel_complete (item : ChannelItem) : Prop :=
  (exists snippet, ch_snippet item = Some snippet)
  /\ (exists statistics, ch_statistics item = Some statistics
        /\ count_readable statistics "subscriberCount"
        /\ count_readable statistics "viewCount"
        /\ count_readable statistics "videoCount")
  /\ (exists details related, ch_contentDetails item = Some details
        /\ relatedPlaylists details = Some related).

(** The cell of a count against the item's [statistics]. *)
Definition count_cell (item : ChannelItem) (r : gmap string pyval) (key : string)
  : Prop :=
  exists z,
    py_int (dict_get_default (default [] (ch_statistics item)) key (PInt 0)) = Return z
    /\ cell r key = PInt z.

(** The row of a complete channel item against the item. *)
Definition channel_row_of (item : ChannelItem) (r : gmap string pyval) : Prop :=
  cell r "channelId" = ch_id item
  /\ cell r "channelName" = dict_get (default [] (ch_snippet item)) "title"
  /\ cell r "publishedAt" = dict_get (default [] (ch_snippet item)) "publishedAt"
  /\ count_cell item r "subscriberCount"
  /\ count_cell item r "viewCount"
  /\ count_cell item r "videoCount"
  /\ cell r "uploadsPlaylistId"
     = dict_get (default [] (ch_contentDetails item ≫= relatedPlaylists)) "uploads".

End ChannelRows.

Definition channel_request (channel_ids : list string) : request :=
  ChannelsList "snippet,contentDetails,statistics" (join "," channel_ids).

Definition channel_error (status : Z) (content : string) : log_record :=
  LogRecord ERROR "YouTube API error while fetching channel stats: {} - {}"
    [PInt status; PStr content].

Definition live_request (channel_id : pyval) (max_results : Z) : request :=
  SearchList "snippet" channel_id "live" "video" max_results.

Definition live_error (channel_id : pyval) (status : Z) (content : string)
  : log_record :=
  LogRecord ERROR "Error fetching live streams for channel {}: {} - {}"
    [channel_id; PInt status; PStr content].

(** The record [get_live_streams] builds for a search item that has both
    [id] and [snippet]. *)
Definition live_record (item : SearchItem) : pyval :=
  PDict [ ("videoId", dict_get (default [] (si_id item)) "videoId");
          ("title", dict_get (default [] (si_snippet item)) "title");
          ("publishedAt", dict_get (default [] (si_snippet item)) "publishedAt") ].

Definition search_complete (item : SearchItem) : Prop :=
  (exists id, si_id item = Some id) /\ (exists snippet, si_snippet item = Some snippet).

(** Fixture: the channel listing answers with one complete channel and one
    without [statistics]. *)
Definition channel_without_statistics : ChannelItem :=
  {| ch_id := PStr "UCRWFSbif-RFENbBrSiez1DA";
     ch_snippet := Some [("title", PStr "Second")];
     ch_statistics := None;
     ch_contentDetails := Some {| relatedPlaylists := Some [] |} |}.

Definition two_channels : Listing ChannelItem :=
  mkListing
    (Some [ channel "UCttspZesZIDEwwpVIgoZtWQ" "First" [("uploads", PStr "UUfirst")];
            channel "UCRWFSbif-RFENbBrSiez1DA" "Second" [] ])
    None.

Definition live_item (id title : string) : SearchItem :=
  {| si_id := Some [("kind", PStr "youtube#video"); ("videoId", PStr id)];
     si_snippet := Some [("title", PStr title); ("publishedAt", PStr "2024-03-11T12:00:00Z")] |}.

(** ** Rows of the detail fetch *)

(** The labels of a row of [get_video_details]: [video_id], then the
    allow-list in the order of [stats_to_keep]. *)
Definition video_labels : list string :=
  ["video_id"; "channelTitle"; "title"; "description"; "tags"; "publishedAt";
   "viewCount"; "likeCount"; "favoriteCount"; "commentCount";
   "duration"; "definition"; "caption"].

Definition is_str (v : pyval) : bool :=
  match v with PStr _ => true | _ => false end.

Definition is_failure {A} (reply : Reply A) : bool :=
  match reply with Failed _ _ => true | Ok _ => false end.

(** Fixture: a last page, without cursor. *)
Definition last_page : Listing PlaylistItem :=
  mkListing (Some [playlist_item "d"]) None.

Definition three_pages : Mock.state :=
  Mock.mkState [] [Ok first_page; Ok second_page; Ok last_page] [] [] [].

(** Fixture: the second page carries an item without [contentDetails]. *)
Definition broken_page : Listing PlaylistItem :=
  mkListing (Some [playlist_item "c"; {| pi_contentDetails := None |}]) None.

Definition second_page_broken : Mock.state :=
  Mock.mkState [] [Ok first_page; Ok broken_page] [] [] [].

(** ** Enrichment: the shape of the frame *)

(** The labels enrichment adds, in the order it assigns them. *)
Definition new_columns : list string :=
  ["publishDayName"; "durationSecs"; "tagsCount"; "likeRatio"; "commentRatio";
   "titleLength"].

(** Every label enrichment assigns to. *)
Definition assigned_columns : list string :=
  numeric_cols ++ "publishedAt" :: new_columns.

(** Row [r'] differs from row [r] in the cells of [cols] at most. *)
Definition kept (cols : list string) (r r' : gmap string pyval) : Prop :=
  forall c, ~ In c cols -> cell r' c = cell r c.

Section RowParts.
Context {libs : Libraries}.

(** A row whose four counts [astype(int)] accepts. *)
Definition countable (r : gmap string pyval) : Prop :=
  forall col, In col numeric_cols -> exists v, coerce_count (cell r col) = Return v.

(** A row whose duration is null or parsed by [isodate]. *)
Definition duration_readable (r : gmap string pyval) : Prop :=
  exists q, duration_secs (cell r "duration") = Return q.

(** What enrichment makes of [duration]. *)
Definition duration_law (r r' : gmap string pyval) : Prop :=
  (notnull (cell r "duration") = false -> notnull (cell r' "durationSecs") = false)
  /\ (notnull (cell r "duration") = true ->
      exists s d, cell r "duration" = PStr s
        /\ parse_duration_str s = Return d
        /\ cell r' "durationSecs" = PFloat (total_seconds d)).


End RowParts.

(** ** Audience reports *)



(** A column header with a [name]. *)
Definition has_name (header : dict) : bool :=
  match dict_lookup header "name" with Some _ => true | None => false end.


Definition age_report : Report :=
  {| columnHeaders :=
       Some [ [("name", PStr "ageGroup")]; [("name", PStr "gender")];
              [("name", PStr "viewerPercentage")] ];
     report_rows :=
       Some [ [PStr "age18-24"; PStr "female"; PFloat 12.5%float];
              [PStr "age18-24"; PStr "male"; PFloat 20%float] ] |}.

(** Fixture: a report with headers and no row. *)
Definition country_report_without_rows : Report :=
  {| columnHeaders := Some [ [("name", PStr "country")]; [("name", PStr "viewerPercentage")] ];
     report_rows := None |}.

(** ** One channel of the collection loop *)

Definition processing_line (channel_name : pyval) : log_record :=
  LogRecord INFO "Processing channel: {}" [channel_name].

Definition found_line (n : nat) (channel_name : pyval) : log_record :=
  LogRecord INFO "Found {} videos for channel: {}" [PInt (Z.of_nat n); channel_name].

(** Fixture: the row of a channel and the frame it comes from. *)
Definition channel_frame : DataFrame :=
  frame_of_records
    [ [ ("channelId", PStr "UCttspZesZIDEwwpVIgoZtWQ"); ("channelName", PStr "First");
        ("publishedAt", PStr "2015-06-01T00:00:00Z"); ("subscriberCount", PInt 789);
        ("viewCount", PInt 123456); ("videoCount", PInt 12);
        ("uploadsPlaylistId", PStr "UUfirst") ] ].

(** * Properties *)

(** ** Outcomes, folds and frames *)

Lemma obind_Return {A B} (c : Outcome A) (k : A -> Outcome B) (b : B) :
  obind c k = Return b -> exists a, c = Return a /\ k a = Return b.
Proof. destruct c as [a| |]; simpl; intros Hk; [eauto | discriminate | discriminate]. Qed.

Ltac obind_inv H :=
  let a := fresh "x" in
  let Ha := fresh "Hx" in
  apply obind_Return in H; destruct H as (a & Ha & H).

Lemma omap_Forall2 {A B} (f : A -> Outcome B) (xs : list A) (ys : list B) :
  omap f xs = Return ys -> Forall2 (fun x y => f x = Return y) xs ys.
Proof.
  revert ys; induction xs as [|x xs IH]; simpl; intros ys H.
  - injection H as <-. constructor.
  - obind_inv H. obind_inv H. injection H as <-.
    constructor; [assumption | apply IH; assumption].
Qed.

Lemma omap_total {A B} (f : A -> Outcome B) (g : A -> B) (xs : list A) :
  (forall x, In x xs -> f x = Return (g x)) -> omap f xs = Return (map g xs).
Proof.
  induction xs as [|x xs IH]; simpl; intros H; [reflexivity|].
  rewrite (H x) by (left; reflexivity). simpl.
  rewrite IH by (intros y Hy; apply H; right; exact Hy). reflexivity.
Qed.

Lemma set_cells_Forall2 col (rs : list (gmap string pyval)) (s : Series) :
  length s = length rs ->
  Forall2 (fun r r' => exists v, r' = <[col := v]> r) rs (set_cells col rs s).
Proof.
  revert s; induction rs as [|r rs IH]; intros [|v s] Hlen; simpl in *;
    try discriminate; constructor; [eauto | apply IH; congruence].
Qed.

(** Row [i] after [df[col] = s] is row [i] before with cell [col] set to [s[i]]. *)
Lemma set_cells_lookup col (rs : list (gmap string pyval)) (s : Series) i r' :
  set_cells col rs s !! i = Some r' <->
  exists r v, rs !! i = Some r /\ s !! i = Some v /\ r' = <[col := v]> r.
Proof.
  revert s i; induction rs as [|r rs IH]; intros [|v s] [|i]; simpl;
    try (split; [discriminate | intros (? & ? & ? & ? & ?); discriminate]).
  - split; [intros [= <-]; eauto | intros (? & ? & [= <-] & [= <-] & ->); reflexivity].
  - apply IH.
Qed.

Lemma set_cells_length col (rs : list (gmap string pyval)) (s : Series) :
  length s = length rs -> length (set_cells col rs s) = length rs.
Proof.
  revert s; induction rs as [|r rs IH]; intros [|v s] Hlen; simpl in *;
    try discriminate; [reflexivity | f_equal; apply IH; congruence].
Qed.

Lemma has_column_setitem_same df col s : has_column (df_setitem df col s) col = true.
Proof.
  unfold df_setitem, has_column at 1; simpl.
  destruct (has_column df col) eqn:E; [exact E|].
  rewrite existsb_app; simpl. rewrite String.eqb_refl.
  apply orb_true_iff; right; reflexivity.
Qed.

Lemma has_column_setitem_keep df col s c :
  has_column df c = true -> has_column (df_setitem df col s) c = true.
Proof.
  unfold df_setitem, has_column at 2; simpl; intros H.
  destruct (has_column df col); [exact H|].
  rewrite existsb_app. unfold has_column in H. rewrite H; reflexivity.
Qed.

Lemma df_getitem_Return df col s :
  df_getitem df col = Return s ->
  has_column df col = true /\ s = map (fun r => cell r col) (rows df).
Proof.
  unfold df_getitem; destruct (has_column df col); [intros [= <-]; auto | discriminate].
Qed.

Lemma lookup_map {A B} (f : A -> B) (l : list A) (i : nat) :
  map f l !! i = f <$> l !! i.
Proof. revert i; induction l as [|a l IH]; intros [|i]; simpl; auto. Qed.

Lemma series_of_results_length vs : length (series_of_results vs) = length vs.
Proof. unfold series_of_results; destruct (existsb is_float vs); [apply length_map | reflexivity]. Qed.

Lemma series_of_results_lookup vs i v :
  series_of_results vs !! i = Some v ->
  exists q, vs !! i = Some q /\ (v = q \/ (v = upcast q /\ existsb is_float vs = true)).
Proof.
  unfold series_of_results; destruct (existsb is_float vs); intros H.
  - rewrite lookup_map in H. destruct (vs !! i) as [q|]; [|discriminate].
    injection H as <-. eauto.
  - eauto.
Qed.

(** *** Series read from a frame, row by row *)

Lemma series_of_results_Forall2 vs :
  Forall2 (fun q v => v = q \/ v = upcast q) vs (series_of_results vs).
Proof.
  unfold series_of_results; destruct (existsb is_float vs).
  - induction vs; simpl; constructor; auto.
  - induction vs; constructor; auto.
Qed.

Lemma column_map_Forall2 (f : pyval -> pyval) col (rs : list (gmap string pyval)) :
  Forall2 (fun r v => v = f (cell r col)) rs (map f (map (fun r => cell r col) rs)).
Proof. induction rs; simpl; constructor; auto. Qed.

Lemma column_omap_Forall2 (f : pyval -> Outcome pyval) col
  (rs : list (gmap string pyval)) (s : Series) :
  omap f (map (fun r => cell r col) rs) = Return s ->
  Forall2 (fun r v => f (cell r col) = Return v) rs s.
Proof.
  revert s; induction rs as [|r rs IH]; simpl; intros s H.
  - injection H as <-. constructor.
  - obind_inv H. obind_inv H. injection H as <-. constructor; auto.
Qed.

Lemma series_apply_Forall2 (f : pyval -> Outcome pyval) col
  (rs : list (gmap string pyval)) (s : Series) :
  series_apply f (map (fun r => cell r col) rs) = Return s ->
  Forall2 (fun r v => exists q, f (cell r col) = Return q /\ (v = q \/ v = upcast q))
          rs s.
Proof.
  unfold series_apply; intros H. obind_inv H. injection H as <-.
  apply column_omap_Forall2 in Hx.
  eapply Forall2_trans; [| exact Hx | apply series_of_results_Forall2].
  simpl; eauto.
Qed.

Lemma frame_apply_Forall2 (f : DataFrame -> gmap string pyval -> Outcome pyval)
  (df : DataFrame) (s : Series) :
  frame_apply f df = Return s ->
  Forall2 (fun r v => exists q, f df r = Return q /\ (v = q \/ v = upcast q))
          (rows df) s.
Proof.
  unfold frame_apply; intros H. obind_inv H. injection H as <-.
  apply omap_Forall2 in Hx.
  eapply Forall2_trans; [| exact Hx | apply series_of_results_Forall2].
  simpl; eauto.
Qed.

(** Assigning a series that is described row by row. *)
Lemma setitem_rows (P : gmap string pyval -> pyval -> Prop) df col (s : Series) :
  Forall2 P (rows df) s ->
  Forall2 (fun r r' => exists v, P r v /\ r' = <[col := v]> r)
          (rows df) (rows (df_setitem df col s)).
Proof.
  unfold df_setitem; simpl. generalize (rows df). intros rs H.
  induction H; simpl; constructor; eauto.
Qed.

(** ** What enrichment does to a row *)

Section EnrichmentFacts.
Context {libs : Libraries}.

Lemma ratio_cells count df r :
  has_column df "viewCount" = true -> has_column df count = true ->
  ratio count df r = ratio_of (cell r count) (cell r "viewCount").
Proof.
  intros Hv Hc. unfold ratio, ratio_of, row_getitem. rewrite Hv, Hc. simpl.
  destruct (truthy (cell r "viewCount")); reflexivity.
Qed.

Lemma coerce_column_rows df col df' :
  coerce_column df col = Return df' ->
  (forall c, has_column df c = true -> has_column df' c = true)
  /\ has_column df' col = true
  /\ Forall2 (fun r r' => exists v,
                coerce_count (cell r col) = Return v /\ r' = <[col := v]> r)
             (rows df) (rows df').
Proof.
  unfold coerce_column; intros H. obind_inv H. obind_inv H. injection H as <-.
  apply df_getitem_Return in Hx as [Hcol ->].
  apply column_omap_Forall2 in Hx0.
  split; [intros c; apply has_column_setitem_keep|].
  split; [apply has_column_setitem_same|].
  apply setitem_rows with (P := fun r v => coerce_count (cell r col) = Return v).
  exact Hx0.
Qed.

Ltac cells :=
  unfold cell in *;
  repeat first
    [ rewrite lookup_insert_eq in *
    | rewrite lookup_insert_ne in * by discriminate ];
  simpl in *.

(** Name the frame after [d[col] = s] and keep what is known of it. *)
Ltac assign d col s HF R K C dfn :=
  pose proof (setitem_rows _ d col s HF) as R;
  pose proof (has_column_setitem_keep d col s) as K;
  pose proof (has_column_setitem_same d col s) as C;
  set (dfn := df_setitem d col s) in *; clearbody dfn.

Ltac next_row R Hr Hr' v E :=
  let r := fresh "r" in
  destruct (Forall2_lookup_l _ _ _ _ _ R Hr) as (r & Hr' & v & E & ->).

Lemma preprocess_rows self df df' :
  preprocess_video_data self df = Return df' ->
  Forall2 enriched (rows df) (rows df').
Proof.
  unfold preprocess_video_data; simpl; intros H.
  obind_inv H. rename x into df4, Hx into F.
  obind_inv F. rename x into df1, Hx into H1. apply coerce_column_rows in H1 as (K1 & C1 & R1).
  obind_inv F. rename x into df2, Hx into H2. apply coerce_column_rows in H2 as (K2 & C2 & R2).
  obind_inv F. rename x into df3, Hx into H3. apply coerce_column_rows in H3 as (K3 & C3 & R3).
  obind_inv F. rename x into df4', Hx into H4. apply coerce_column_rows in H4 as (K4 & C4 & R4).
  injection F as ->.
  (* publishedAt *)
  obind_inv H. apply df_getitem_Return in Hx as [_ ->].
  assign df4 "publishedAt"
    (map to_datetime_coerce (map (fun r => cell r "publishedAt") (rows df4)))
    (column_map_Forall2 to_datetime_coerce "publishedAt" (rows df4)) R5 K5 C5 df5.
  (* publishDayName *)
  obind_inv H. apply df_getitem_Return in Hx as [_ ->].
  assign df5 "publishDayName"
    (map day_name (map (fun r => cell r "publishedAt") (rows df5)))
    (column_map_Forall2 day_name "publishedAt" (rows df5)) R6 K6 C6 df6.
  (* durationSecs *)
  obind_inv H. apply df_getitem_Return in Hx as [_ ->].
  obind_inv H. rename x into s7. apply series_apply_Forall2 in Hx.
  assign df6 "durationSecs" s7 Hx R7 K7 C7 df7. clear Hx.
  (* tagsCount *)
  obind_inv H. apply df_getitem_Return in Hx as [_ ->].
  assign df7 "tagsCount"
    (map tags_count (map (fun r => cell r "tags") (rows df7)))
    (column_map_Forall2 tags_count "tags" (rows df7)) R8 K8 C8 df8.
  assert (V8 : has_column df8 "viewCount" = true) by auto 12.
  assert (L8 : has_column df8 "likeCount" = true) by auto 12.
  assert (M8 : has_column df8 "commentCount" = true) by auto 12.
  (* likeRatio *)
  obind_inv H. rename x into s9. apply frame_apply_Forall2 in Hx.
  assign df8 "likeRatio" s9 Hx R9 K9 C9 df9. clear Hx.
  (* commentRatio *)
  obind_inv H. rename x into s10. apply frame_apply_Forall2 in Hx.
  assign df9 "commentRatio" s10 Hx R10 K10 C10 df10. clear Hx.
  (* titleLength *)
  obind_inv H. apply df_getitem_Return in Hx as [_ ->].
  pose proof (setitem_rows _ df10 "titleLength" _
                (column_map_Forall2 title_length "title" (rows df10))) as R11.
  injection H as <-.
  apply Forall2_same_length_lookup_2.
  - rewrite (Forall2_length _ _ _ R1), (Forall2_length _ _ _ R2),
      (Forall2_length _ _ _ R3), (Forall2_length _ _ _ R4),
      (Forall2_length _ _ _ R5), (Forall2_length _ _ _ R6),
      (Forall2_length _ _ _ R7), (Forall2_length _ _ _ R8),
      (Forall2_length _ _ _ R9), (Forall2_length _ _ _ R10).
    exact (Forall2_length _ _ _ R11).
  - intros i r r' Hr Hr'.
    next_row R1 Hr Hr1 v1 E1. next_row R2 Hr1 Hr2 v2 E2.
    next_row R3 Hr2 Hr3 v3 E3. next_row R4 Hr3 Hr4 v4 E4.
    next_row R5 Hr4 Hr5 v5 E5. next_row R6 Hr5 Hr6 v6 E6.
    next_row R7 Hr6 Hr7 v7 E7. next_row R8 Hr7 Hr8 v8 E8.
    next_row R9 Hr8 Hr9 v9 E9. next_row R10 Hr9 Hr10 v10 E10.
    next_row R11 Hr10 Hr11 v11 E11.
    rewrite Hr11 in Hr'. injection Hr' as <-.
    destruct E7 as (q7 & E7 & S7), E9 as (q9 & E9 & S9), E10 as (q10 & E10 & S10).
    rewrite ratio_cells in E9 by assumption.
    rewrite ratio_cells in E10 by auto.
    clear R1 R2 R3 R4 R5 R6 R7 R8 R9 R10 R11 Hr Hr1 Hr2 Hr3 Hr4 Hr5 Hr6 Hr7 Hr8 Hr9 Hr10 Hr11.
    subst v5 v6 v8 v11.
    cells.
    split; cells; unfold stored; eauto.
Qed.

(** Enrichment keeps every row, in order. *)
Lemma preprocess_length self df df' :
  preprocess_video_data self df = Return df' ->
  length (rows df') = length (rows df).
Proof. intros H. symmetry. exact (Forall2_length _ _ _ (preprocess_rows _ _ _ H)). Qed.

(** *** When enrichment returns *)

Lemma coerce_count_int v v' : coerce_count v = Return v' -> exists z, v' = PInt z.
Proof.
  unfold coerce_count, astype_int.
  destruct (fillna (NInt 0) (to_numeric_coerce v)) as [z|f]; [intros [= <-]; eauto|].
  destruct (float_trunc f); [intros [= <-]; eauto | discriminate].
Qed.

Lemma coerce_count_again z : coerce_count (PInt z) = Return (PInt z).
Proof. reflexivity. Qed.


Lemma omap_ok {A B} (f : A -> Outcome B) (xs : list A) :
  Forall (fun x => exists y, f x = Return y) xs -> exists ys, omap f xs = Return ys.
Proof.
  induction 1 as [|x xs [y Hy] _ [ys Hys]]; simpl; [eauto|].
  rewrite Hy; simpl. rewrite Hys; simpl. eauto.
Qed.

Lemma Forall_step {A B} (P : A -> Prop) (Q : B -> Prop) (R : A -> B -> Prop) l k :
  Forall P l -> Forall2 R l k -> (forall x y, P x -> R x y -> Q y) -> Forall Q k.
Proof.
  intros HP HR HQ. induction HR; [constructor|].
  inversion HP; subst. constructor; eauto.
Qed.

Lemma Forall_cells (P : pyval -> Prop) col (rs : list (gmap string pyval)) :
  Forall (fun r => P (cell r col)) rs -> Forall P (map (fun r => cell r col) rs).
Proof. induction 1; simpl; constructor; auto. Qed.

Lemma coerce_column_total df col :
  has_column df col = true ->
  Forall (fun r => exists v, coerce_count (cell r col) = Return v) (rows df) ->
  exists df', coerce_column df col = Return df'.
Proof.
  intros Hc Hr. unfold coerce_column, df_getitem. rewrite Hc; simpl.
  destruct (omap_ok coerce_count (map (fun r => cell r col) (rows df))) as [s Hs].
  - apply (Forall_cells (fun v => exists y, coerce_count v = Return y)). exact Hr.
  - rewrite Hs; simpl. eauto.
Qed.



Lemma cell_insert col c v (r : gmap string pyval) :
  cell (<[col := v]> r) c = if decide (col = c) then v else cell r c.
Proof. unfold cell. rewrite lookup_insert. destruct (decide (col = c)); reflexivity. Qed.










End EnrichmentFacts.

(** ** Enrichment: the claims *)

Section EnrichmentClaims.
Context {libs : Libraries}.









End EnrichmentClaims.

(** *** The claims on the sample frame *)

Ltac has_columns :=
  let c := fresh "c" in let Hc := fresh "Hc" in
  intros c Hc; simpl in Hc;
  repeat (destruct Hc as [<-|Hc]; [vm_compute; reflexivity|]); destruct Hc.


Lemma sample_frame_columns :
  forall c, In c required_columns -> has_column sample_frame c = true.
Proof. has_columns. Qed.



(** A video with 1000 views and 50 likes has [likeRatio] 50.0. *)
Example like_ratio_fifty :
  preprocess_video_data (libs := Reference.libraries) yt sample_frame
    = Return sample_enriched
  /\ (fun r => cell r "likeRatio") <$> rows sample_enriched !! 0%nat
     = Some (PFloat 50%float).
Proof. split; vm_compute; reflexivity. Qed.




(** The second sample video has a date [pd.to_datetime] cannot read: its
    row is kept and its day name is null. *)
Example unreadable_date_kept :
  length (rows sample_enriched) = 3%nat
  /\ map (fun r => cell r "publishDayName") (rows sample_enriched)
     = [PStr "Monday"; PNone; PStr "Tuesday"].
Proof. split; vm_compute; reflexivity. Qed.

(** C1: [durationSecs] of "PT1H2M10S" is 3730.0 and of a null duration is
    null, but a duration [isodate] cannot parse makes
    [preprocess_video_data] raise [ISO8601Error]: no frame is returned for
    the batch, although the other row is well-formed. *)
Theorem malformed_duration_halts_batch :
  duration_secs (libs := Reference.libraries) (PStr "PT1H2M10S")
    = Return (PFloat 3730%float)
  /\ duration_secs (libs := Reference.libraries) PNone = Return PNone
  /\ duration_secs (libs := Reference.libraries) (PStr "1:02:10")
     = Raise (ISO8601Error "Unable to parse duration string")
  /\ preprocess_video_data (libs := Reference.libraries) yt malformed_duration_frame
     = Raise (ISO8601Error "Unable to parse duration string").
Proof. repeat split; vm_compute; reflexivity. Qed.

(** *** An unparseable duration, whatever the parser *)

Lemma duration_error_escapes {libs : Libraries} s e :
  parse_duration_str s = Raise e -> duration_secs (PStr s) = Raise e.
Proof. intros H. unfold duration_secs, parse_duration; simpl. rewrite H. reflexivity. Qed.

(** ** Batched detail fetch *)

Lemma chunks_fuel_nil {A} fuel n : @chunks_fuel A fuel n [] = [].
Proof. destruct fuel; reflexivity. Qed.

Lemma chunks_fuel_concat {A} fuel n (l : list A) :
  (0 < n)%nat -> (length l <= fuel)%nat -> concat (chunks_fuel fuel n l) = l.
Proof.
  intros Hn. revert l; induction fuel as [|fuel IH]; intros l Hlen.
  - destruct l; [reflexivity | simpl in Hlen; lia].
  - destruct l as [|a l]; [reflexivity|].
    change (firstn n (a :: l) ++ concat (chunks_fuel fuel n (skipn n (a :: l))) = a :: l).
    rewrite IH; [apply firstn_skipn|].
    rewrite length_skipn. simpl in *. lia.
Qed.

Lemma chunks_fuel_bound {A} fuel n (l : list A) :
  (0 < n)%nat ->
  Forall (fun c => (0 < length c <= n)%nat) (chunks_fuel fuel n l).
Proof.
  intros Hn. revert l; induction fuel as [|fuel IH]; intros l; [constructor|].
  destruct l as [|a l]; [constructor|].
  change (Forall (fun c => (0 < length c <= n)%nat)
            (firstn n (a :: l) :: chunks_fuel fuel n (skipn n (a :: l)))).
  constructor; [|apply IH].
  rewrite length_firstn. simpl. lia.
Qed.

Lemma chunks_fuel_count {A} fuel n (l : list A) :
  (0 < n)%nat -> (length l <= fuel)%nat ->
  length (chunks_fuel fuel n l) = ((length l + (n - 1)) / n)%nat.
Proof.
  intros Hn. revert l; induction fuel as [|fuel IH]; intros l Hlen.
  - destruct l; [|simpl in Hlen; lia]. simpl.
    symmetry. apply Nat.div_small. lia.
  - destruct l as [|a l].
    + simpl. symmetry. apply Nat.div_small. lia.
    + change (S (length (chunks_fuel fuel n (skipn n (a :: l))))
              = ((length (a :: l) + (n - 1)) / n)%nat).
      rewrite IH by (rewrite length_skipn; simpl in *; lia).
      rewrite length_skipn.
      destruct (Nat.le_gt_cases n (length (a :: l))) as [Hge|Hlt].
      * replace (length (a :: l) + (n - 1))%nat
          with ((length (a :: l) - n + (n - 1)) + 1 * n)%nat by lia.
        rewrite Nat.div_add by lia. lia.
      * replace (length (a :: l) - n)%nat with 0%nat by lia.
        rewrite (Nat.div_small (0 + (n - 1)) n) by lia.
        apply (Nat.div_unique _ _ 1%nat (length (a :: l) - 1)%nat);
          simpl in *; lia.
Qed.

(** The loop's slices are the chunks. *)
Lemma range_slices {A} fuel n i (l : list A) :
  map (fun j => slice l j (j + n)) (range_from fuel i (length l) n)
  = chunks_fuel fuel n (skipn i l).
Proof.
  revert i; induction fuel as [|fuel IH]; intros i; [reflexivity|].
  simpl range_from. destruct (Nat.ltb_spec i (length l)) as [Hlt|Hge].
  - simpl map. rewrite IH.
    assert (Hne : exists a t, skipn i l = a :: t).
    { destruct (skipn i l) as [|a t] eqn:E; [|eauto].
      apply (f_equal (@length A)) in E. rewrite length_skipn in E. simpl in E. lia. }
    destruct Hne as (a & t & E). simpl chunks_fuel. rewrite E.
    rewrite <- E. unfold slice.
    replace (i + n - i)%nat with n by lia.
    rewrite skipn_skipn. replace (n + i)%nat with (i + n)%nat by lia. reflexivity.
  - rewrite skipn_all2 by lia. rewrite chunks_fuel_nil. reflexivity.
Qed.

Section DetailFetch.
Context {PState : Type} {client : Provider PState}.

Lemma str_items_strings (l : list string) : str_items (map PStr l) = Return l.
Proof. induction l as [|s l IH]; simpl; [reflexivity|]. rewrite IH. reflexivity. Qed.

Lemma slice_map {A B} (f : A -> B) (l : list A) i j :
  slice (map f l) i j = map f (slice l i j).
Proof. unfold slice. rewrite skipn_map, firstn_map. reflexivity. Qed.

Lemma append_rows (videos : list VideoItem) (acc : list dict) :
  fold_left (fun all_video_info video => all_video_info ++ [video_info_of video])
            videos acc
  = acc ++ map video_info_of videos.
Proof.
  revert acc; induction videos as [|v vs IH]; intros acc; simpl.
  - rewrite app_nil_r. reflexivity.
  - rewrite IH, <- app_assoc. reflexivity.
Qed.

(** One turn of the loop: one request, whatever the reply. *)
Lemma fetch_chunk_run (ids : list string) acc i (w : World PState) :
  fetch_chunk (map PStr ids) acc i w =
  (Return (acc ++ reply_rows (fst (videos_list details_part
                                     (join "," (slice ids i (i + 50))) (provider w)))),
   mkWorld (snd (videos_list details_part (join "," (slice ids i (i + 50))) (provider w)))
           (requests w ++ [detail_request (slice ids i (i + 50))])
           (log w ++ reply_log (fst (videos_list details_part
                                       (join "," (slice ids i (i + 50))) (provider w))))
           (files w)).
Proof.
  unfold fetch_chunk, join_ids, bind, lift, execute, detail_request, details_part.
  rewrite slice_map, str_items_strings. simpl.
  destruct (videos_list _ _ (provider w)) as [[response|status content] p1]; simpl.
  - unfold ret. rewrite append_rows, app_nil_r. reflexivity.
  - unfold ret. rewrite app_nil_r. reflexivity.
Qed.

(** The whole loop against the replies of the provider. *)
Lemma fetch_loop (ids : list string) idxs acc (w : World PState) :
  mfold (fetch_chunk (map PStr ids)) idxs acc w =
  let groups := map (fun j => slice ids j (j + 50)) idxs in
  (Return (acc ++ concat (map reply_rows (fst (serve groups (provider w))))),
   mkWorld (snd (serve groups (provider w)))
           (requests w ++ map detail_request groups)
           (log w ++ concat (map reply_log (fst (serve groups (provider w)))))
           (files w)).
Proof.
  revert acc w; induction idxs as [|i idxs IH]; intros acc w; simpl.
  - unfold ret. rewrite !app_nil_r. destruct w; reflexivity.
  - unfold bind. rewrite fetch_chunk_run. rewrite IH. simpl.
    destruct (videos_list details_part _ (provider w)) as [reply p1]; simpl.
    destruct (serve _ p1) as [replies p2]; simpl.
    rewrite <- !app_assoc. reflexivity.
Qed.

(** The fetch against the replies of the provider: it never raises. *)
Lemma detail_fetch_run self (ids : list string) (w : World PState) :
  get_video_details self (map PStr ids) w =
  (Return (frame_of_records
             (concat (map reply_rows (fst (serve (chunks 50 ids) (provider w)))))),
   mkWorld (snd (serve (chunks 50 ids) (provider w)))
           (requests w ++ map detail_request (chunks 50 ids))
           (log w ++ concat (map reply_log (fst (serve (chunks 50 ids) (provider w)))))
           (files w)).
Proof.
  unfold get_video_details, bind, chunks. rewrite length_map. unfold py_range.
  rewrite fetch_loop. simpl. rewrite range_slices. reflexivity.
Qed.

(** C4: for every sequence of identifiers, the detail fetch asks for the
    consecutive groups [chunks 50 ids] (which concatenate to the input, hold
    at most 50 identifiers each and number [ceil(N / 50)], none for an empty
    input), one request per group in order, and returns the rows of the
    replies concatenated in that order. *)
Theorem detail_fetch_batches self (ids : list string) (w : World PState) :
  let groups := chunks 50 ids in
  let replies := fst (serve groups (provider w)) in
  concat groups = ids
  /\ Forall (fun g => (0 < length g <= 50)%nat) groups
  /\ length groups = ((length ids + 49) / 50)%nat
  /\ get_video_details self (map PStr ids) w =
     (Return (frame_of_records (concat (map reply_rows replies))),
      mkWorld (snd (serve groups (provider w)))
              (requests w ++ map detail_request groups)
              (log w ++ concat (map reply_log replies))
              (files w)).
Proof.
  intros groups replies. subst groups replies.
  split; [apply chunks_fuel_concat; lia|].
  split; [apply chunks_fuel_bound; lia|].
  split; [apply (chunks_fuel_count (length ids) 50 ids); lia|].
  apply detail_fetch_run.
Qed.



End DetailFetch.

(** *** The fetch on the scripted provider *)


(** ** Paginated id collection *)

Section IdCollection.
Context {PState : Type} {client : Provider PState}.

Lemma collect_page page_items ids acc :
  page_ids page_items = Some ids ->
  ofold collect_video_id page_items acc = Return (acc ++ ids).
Proof.
  revert ids acc; induction page_items as [|item rest IH]; intros ids acc; simpl.
  - intros [= <-]. rewrite app_nil_r. reflexivity.
  - unfold item_video_ids, collect_video_id at 1.
    destruct (pi_contentDetails item) as [details|]; [|discriminate]. simpl.
    destruct (page_ids rest) as [b|]; [|discriminate]. intros [= <-].
    destruct (truthy (dict_get details "videoId")); simpl.
    + rewrite (IH b) by reflexivity. rewrite <- app_assoc. reflexivity.
    + apply IH. reflexivity.
Qed.

(** The loop over a run of good pages that ends in a failure. *)
Lemma collect_until_failure pl p tok pages p' tok' :
  served pl p tok pages p' tok' ->
  forall ids acc fuel (w : World PState) status content p'',
    provider w = p ->
    pages_ids pages = Some ids ->
    playlistItems_list "contentDetails" pl 50 tok' p' = (Failed status content, p'') ->
    (length pages < fuel)%nat ->
    get_video_ids_loop fuel pl tok acc w =
    (Return (acc ++ ids),
     mkWorld p'' (requests w ++ map (page_request pl) (tok :: map nextPageToken pages))
             (log w ++ [page_error pl status content]) (files w)).
Proof.
  induction 1 as [p tok | p tok page p1 rest p' tok' Hpage Htok Hrest IH];
    intros ids acc fuel w status content p'' Hw Hids Hfail Hfuel.
  - destruct fuel as [|fuel]; [simpl in Hfuel; lia|].
    injection Hids as <-. simpl.
    unfold bind, execute. rewrite Hw, Hfail. simpl.
    rewrite app_nil_r. reflexivity.
  - destruct fuel as [|fuel]; [simpl in Hfuel; lia|].
    simpl in Hids.
    destruct (page_ids (default [] (items page))) as [a|] eqn:Ea; [|discriminate].
    destruct (pages_ids rest) as [b|] eqn:Eb; [|discriminate].
    injection Hids as <-. simpl get_video_ids_loop.
    unfold bind at 1, execute. rewrite Hw, Hpage.
    unfold bind at 1, lift. rewrite (collect_page _ a acc Ea). rewrite Htok.
    rewrite (IH b (acc ++ a) fuel _ status content p'');
      [| reflexivity | reflexivity | exact Hfail | simpl in Hfuel; lia].
    simpl. rewrite <- !app_assoc. reflexivity.
Qed.

(** C5: when the provider answers some pages and then fails with an
    [HttpError], the collector stops there: it returns (does not raise)
    exactly the identifiers of the pages answered before, in order, has
    issued no request after the failed one, and has logged the failure. *)
Theorem page_failure_returns_partial fuel self pl (w : World PState)
  pages p tok ids status content p' :
  served pl (provider w) None pages p tok ->
  pages_ids pages = Some ids ->
  playlistItems_list "contentDetails" pl 50 tok p = (Failed status content, p') ->
  (length pages < fuel)%nat ->
  get_video_ids fuel self pl w =
  (Return ids,
   mkWorld p' (requests w ++ map (page_request pl) (None :: map nextPageToken pages))
           (log w ++ [page_error pl status content]) (files w)).
Proof.
  intros Hserved Hids Hfail Hfuel. unfold get_video_ids.
  exact (collect_until_failure pl _ _ _ _ _ Hserved ids [] fuel w status content p'
           eq_refl Hids Hfail Hfuel).
Qed.

(** The loop over a run of good pages closed by a page without cursor. *)
Lemma collect_to_last_page pl p tok pages p' tok' :
  served pl p tok pages p' tok' ->
  forall ids acc fuel (w : World PState) final final_ids p'',
    provider w = p ->
    pages_ids pages = Some ids ->
    playlistItems_list "contentDetails" pl 50 tok' p' = (Ok final, p'') ->
    page_ids (default [] (items final)) = Some final_ids ->
    token_truthy (nextPageToken final) = false ->
    (length pages < fuel)%nat ->
    get_video_ids_loop fuel pl tok acc w =
    (Return (acc ++ ids ++ final_ids),
     mkWorld p'' (requests w ++ map (page_request pl) (tok :: map nextPageToken pages))
             (log w) (files w)).
Proof.
  induction 1 as [p tok | p tok page p1 rest p' tok' Hpage Htok Hrest IH];
    intros ids acc fuel w final final_ids p'' Hw Hids Hlast Hfinal Hend Hfuel.
  - destruct fuel as [|fuel]; [simpl in Hfuel; lia|].
    injection Hids as <-. simpl.
    unfold bind at 1, execute. rewrite Hw, Hlast.
    unfold bind, lift. rewrite (collect_page _ final_ids acc Hfinal), Hend.
    reflexivity.
  - destruct fuel as [|fuel]; [simpl in Hfuel; lia|].
    simpl in Hids.
    destruct (page_ids (default [] (items page))) as [a|] eqn:Ea; [|discriminate].
    destruct (pages_ids rest) as [b|] eqn:Eb; [|discriminate].
    injection Hids as <-. simpl get_video_ids_loop.
    unfold bind at 1, execute. rewrite Hw, Hpage.
    unfold bind at 1, lift. rewrite (collect_page _ a acc Ea). rewrite Htok.
    rewrite (IH b (acc ++ a) fuel _ final final_ids p'');
      [| reflexivity | reflexivity | exact Hlast | exact Hfinal | exact Hend
       | simpl in Hfuel; lia].
    simpl. rewrite <- !app_assoc. reflexivity.
Qed.

End IdCollection.

Section SkippedItems.
Context {PState : Type} {client : Provider PState}.



End SkippedItems.

(** *** The collector on the scripted provider *)

Lemma page_failure_on_mock :
  get_video_ids 10 yt (PStr "UUuploads") (Mock.world third_page_fails) =
  (Return [PStr "a"; PStr "b"; PStr "c"],
   mkWorld (Mock.mkState [] [] [] [] [])
           [ page_request (PStr "UUuploads") None;
             page_request (PStr "UUuploads") (Some "CAUQAA");
             page_request (PStr "UUuploads") (Some "CAoQAA") ]
           [page_error (PStr "UUuploads") 403 "quotaExceeded"]
           []).
Proof.
  apply (page_failure_returns_partial 10 yt (PStr "UUuploads")
           (Mock.world third_page_fails) [first_page; second_page]
           (Mock.mkState [] [Failed 403 "quotaExceeded"] [] [] [])
           (Some "CAoQAA") [PStr "a"; PStr "b"; PStr "c"] 403 "quotaExceeded"
           (Mock.mkState [] [] [] [] []));
    [ | reflexivity | reflexivity | simpl; lia ].
  eapply served_page; [reflexivity | reflexivity |].
  eapply served_page; [reflexivity | reflexivity |].
  apply served_none.
Defined.


(** An item with no [contentDetails] at all is another matter: the
    subscript raises [KeyError], which the collector does not catch. *)
Example item_without_details_raises :
  get_video_ids 10 yt (PStr "UUuploads")
    (Mock.world (Mock.mkState []
       [Ok (mkListing (Some [playlist_item "a"; {| pi_contentDetails := None |}]) None)]
       [] [] []))
  = (Raise (KeyError "contentDetails"),
     mkWorld (Mock.mkState [] [] [] [] [])
             [page_request (PStr "UUuploads") None] [] []).
Proof. reflexivity. Qed.

(** ** Audience insights *)

Section AudienceInsights.
Context {PState : Type} {client : Provider PState} {libs : Libraries}.


(** With credentials the first thing the operation does is query the
    provider. *)
Lemma credentials_present_queries self credentials channel_id start_date end_date
  (w : World PState) :
  analytics_credentials self = Some credentials -> credentials <> PNone ->
  exists rest,
    requests (snd (get_audience_insights self channel_id start_date end_date w))
    = requests w
      ++ ReportsQuery channel_id start_date end_date "viewerPercentage"
           "ageGroup,gender" "ageGroup,gender" :: rest.
Proof.
  intros Hc Hne. unfold get_audience_insights. rewrite Hc.
  destruct credentials; try congruence;
    unfold bind at 1, query_report at 1, bind at 1, execute;
    destruct (reports_query _ _ _ _ _ _ (provider w)) as [[response|status content] p1];
    simpl.
  all: try (exists []; reflexivity).
  all: unfold ret, bind, lift; simpl;
    destruct (report_table response); simpl; try (exists []; reflexivity).
  all: unfold query_report, bind, execute; simpl;
    destruct (reports_query _ _ _ _ _ _ p1) as [[response2|status2 content2] p2]; simpl;
    try (eexists; rewrite <- app_assoc; reflexivity).
  all: unfold ret; destruct (report_table response2); simpl;
    eexists; rewrite <- app_assoc; reflexivity.
Qed.

End AudienceInsights.


(** Start-up is not an operation of the object, and has a check of its
    own: without an API key the module logs an error and raises. *)
Example missing_api_key_stops_startup :
  module_init None (Mock.world (Mock.mkState [] [] [] [] []))
  = (Raise (ValueError
       "Set the YOUTUBE_API_KEY environment variable with your YouTube API key."),
     mkWorld (Mock.mkState [] [] [] [] []) []
       [LogRecord ERROR "Missing YOUTUBE_API_KEY environment variable!" []] []).
Proof. reflexivity. Qed.

(** ** The orchestrator on an empty video table *)

(** Nothing to enrich: [pd.DataFrame()] has no [viewCount] column. *)
Lemma preprocess_empty_frame {libs : Libraries} self :
  preprocess_video_data self empty_frame = Raise (KeyError "viewCount").
Proof. reflexivity. Qed.

(** C6: with two channels listed and every id collection failing, the
    combined video table stays [pd.DataFrame()]; [main] then raises
    [KeyError] from [preprocess_video_data] and writes no output table. *)
Theorem empty_video_table_crashes :
  fst (main (libs := Reference.libraries) 10 (Mock.world no_video_rows)) = Raise (KeyError "viewCount")
  /\ files (snd (main (libs := Reference.libraries) 10 (Mock.world no_video_rows))) = []
  /\ last (log (snd (main (libs := Reference.libraries) 10 (Mock.world no_video_rows))))
     = Some (LogRecord INFO "Preprocessing video data..." []).
Proof. repeat split; vm_compute; reflexivity. Qed.

(** The same on any provider, as soon as the channel listing itself fails:
    no channel, no row, and [main] raises. *)
Lemma main_without_channels_raises {PState : Type} {client : Provider PState}
  {libs : Libraries} fuel (w : World PState) status content p1 :
  channels_list "snippet,contentDetails,statistics" (join "," YOUTUBE_CHANNEL_IDS)
    (provider w) = (Failed status content, p1) ->
  fst (main fuel w) = Raise (KeyError "viewCount")
  /\ files (snd (main fuel w)) = files w.
Proof.
  intros Hfail. simpl in Hfail.
  unfold main, get_channel_stats. unfold bind, logging, execute, ret, lift. simpl.
  rewrite Hfail. simpl. split; reflexivity.
Qed.

(** With rows to enrich [main] completes and writes both tables. *)
Example main_writes_both_tables :
  fst (main (libs := Reference.libraries) 10 (Mock.world one_channel)) = Return tt
  /\ map fst (files (snd (main (libs := Reference.libraries) 10 (Mock.world one_channel))))
     = ["youtube_video_data.csv"; "youtube_live_streams.csv"].
Proof. split; vm_compute; reflexivity. Qed.

(** ** Channel statistics *)

Lemma ofold_collect {A B} (f : A -> Outcome B) (xs : list A) (acc : list B) :
  ofold (fun acc x => let? y := f x in Return (acc ++ [y])) xs acc
  = let? ys := omap f xs in Return (acc ++ ys).
Proof.
  revert acc; induction xs as [|x xs IH]; intros acc; simpl.
  - rewrite app_nil_r. reflexivity.
  - destruct (f x) as [y| |]; simpl; try reflexivity.
    rewrite IH. destruct (omap f xs); simpl; try reflexivity.
    rewrite <- app_assoc. reflexivity.
Qed.

Lemma omap_app_raise {A B} (f : A -> Outcome B) (before after : list A) x e :
  Forall (fun y => exists z, f y = Return z) before ->
  f x = Raise e ->
  omap f (before ++ x :: after) = Raise e.
Proof.
  intros Hb Hx. induction Hb as [|y before [z Hz] _ IH]; simpl.
  - rewrite Hx. reflexivity.
  - rewrite Hz. simpl. rewrite IH. reflexivity.
Qed.

Section ChannelStats.
Context {PState : Type} {client : Provider PState} {libs : Libraries}.

(** X1: When the channel listing fails with an [HttpError], [get_channel_stats]
    logs it and returns [pd.DataFrame()], a frame without columns. *)
Theorem channel_listing_failure_gives_empty_frame self ids (w : World PState)
  status content p1 :
  channels_list "snippet,contentDetails,statistics" (join "," ids) (provider w)
    = (Failed status content, p1) ->
  get_channel_stats self ids w =
  (Return empty_frame,
   mkWorld p1 (requests w ++ [channel_request ids])
           (log w ++ [channel_error status content]) (files w)).
Proof.
  intros Hfail. unfold get_channel_stats, bind, execute, channel_request.
  rewrite Hfail. reflexivity.
Qed.

Lemma channel_record_complete item :
  channel_complete item ->
  exists record,
    channel_record item = Return record
    /\ map fst record = channel_labels
    /\ channel_row_of item (row_of_dict record).
Proof.
  intros ((snippet & Hs) & (statistics & Hst & (zs & Hzs) & (zv & Hzv) & (zc & Hzc))
          & (details & related & Hd & Hr)).
  unfold channel_record. rewrite Hs, Hst. simpl. rewrite Hzs. simpl.
  rewrite Hzv. simpl. rewrite Hzc. simpl. rewrite Hd. simpl. rewrite Hr. simpl.
  eexists. split; [reflexivity|]. split; [reflexivity|].
  unfold channel_row_of, count_cell. rewrite Hs, Hst, Hd. simpl. rewrite Hr.
  repeat split; try reflexivity; eexists; (split; [eassumption | reflexivity]).
Qed.

Lemma channel_frame_labels (records : list dict) :
  Forall (fun d => map fst d = channel_labels) records ->
  columns (frame_of_records records)
  = match records with [] => [] | _ :: _ => channel_labels end.
Proof.
  unfold frame_of_records; simpl. destruct 1 as [|d records Hd Hrest]; [reflexivity|].
  simpl. rewrite Hd.
  change (add_labels [] channel_labels) with channel_labels.
  induction Hrest as [|d' records Hd' _ IH]; simpl; [reflexivity|].
  rewrite Hd'. exact IH.
Qed.

(** X2: When the listing answers and every item is complete, the frame has one
    row per item, in response order, built from the item's fields, under
    the seven labels of the dict literal (no label at all for an empty
    answer); one request went out and nothing was logged. *)
Theorem channel_stats_one_row_per_item self ids (w : World PState) response p1 :
  channels_list "snippet,contentDetails,statistics" (join "," ids) (provider w)
    = (Ok response, p1) ->
  Forall channel_complete (default [] (items response)) ->
  exists df,
    get_channel_stats self ids w =
      (Return df, mkWorld p1 (requests w ++ [channel_request ids]) (log w) (files w))
    /\ columns df
       = match default [] (items response) with [] => [] | _ :: _ => channel_labels end
    /\ Forall2 channel_row_of (default [] (items response)) (rows df).
Proof.
  intros Hok Hcomplete.
  assert (Hrecs : exists records,
             omap channel_record (default [] (items response)) = Return records
             /\ Forall (fun d => map fst d = channel_labels) records
             /\ Forall2 (fun item d => channel_row_of item (row_of_dict d))
                        (default [] (items response)) records).
  { induction Hcomplete as [|item rest Hitem _ (records & Hrs & Hl & Hrows)].
    - exists []. repeat split; constructor.
    - destruct (channel_record_complete item Hitem) as (record & Hr & Hlab & Hrow).
      exists (record :: records). simpl. rewrite Hr. simpl. rewrite Hrs. simpl.
      repeat split; constructor; assumption. }
  destruct Hrecs as (records & Hrs & Hlabels & Hrows).
  exists (frame_of_records records). split; [|split].
  - unfold get_channel_stats, bind, execute, lift, ret, channel_request.
    rewrite Hok. rewrite ofold_collect, Hrs. reflexivity.
  - rewrite (channel_frame_labels records Hlabels).
    destruct Hrows; reflexivity.
  - simpl. clear -Hrows. induction Hrows; simpl; constructor; auto.
Qed.

(** X3: Only [HttpError] is caught: an exception raised while the row of an
    item is built (a missing section, a count [int] cannot read) escapes
    [get_channel_stats], unlogged, and the rows built before it are lost. *)
Theorem channel_row_exception_escapes self ids (w : World PState)
  response p1 before item after e :
  channels_list "snippet,contentDetails,statistics" (join "," ids) (provider w)
    = (Ok response, p1) ->
  items response = Some (before ++ item :: after) ->
  Forall channel_complete before ->
  channel_record item = Raise e ->
  get_channel_stats self ids w =
  (Raise e, mkWorld p1 (requests w ++ [channel_request ids]) (log w) (files w)).
Proof.
  intros Hok Hitems Hbefore Hitem.
  unfold get_channel_stats, bind, execute, lift, channel_request.
  rewrite Hok, Hitems. simpl default. rewrite ofold_collect.
  rewrite (omap_app_raise channel_record before after item e); [reflexivity | | exact Hitem].
  eapply Forall_impl; [exact Hbefore|]. intros it Hc.
  destruct (channel_record_complete it Hc) as (record & Hr & _). eauto.
Qed.

(** Which exception a missing section raises. *)
Lemma channel_record_missing_section item :
  (ch_snippet item = None -> channel_record item = Raise (KeyError "snippet"))
  /\ (ch_snippet item <> None -> ch_statistics item = None ->
      channel_record item = Raise (KeyError "statistics")).
Proof.
  unfold channel_record. split.
  - intros ->. reflexivity.
  - intros Hs ->. destruct (ch_snippet item); [reflexivity | congruence].
Qed.

End ChannelStats.

Lemma channel_listing_failure_on_mock :
  get_channel_stats (libs := Reference.libraries) yt YOUTUBE_CHANNEL_IDS
    (Mock.world (Mock.mkState [Failed 403 "quotaExceeded"] [] [] [] []))
  = (Return empty_frame,
     mkWorld (Mock.mkState [] [] [] [] []) ([] ++ [channel_request YOUTUBE_CHANNEL_IDS])
             ([] ++ [channel_error 403 "quotaExceeded"]) []).
Proof.
  apply (channel_listing_failure_gives_empty_frame (libs := Reference.libraries) yt
           YOUTUBE_CHANNEL_IDS
           (Mock.world (Mock.mkState [Failed 403 "quotaExceeded"] [] [] [] []))
           403 "quotaExceeded" (Mock.mkState [] [] [] [] [])).
  reflexivity.
Defined.

Ltac complete_channel :=
  split; [eexists; reflexivity|];
  split; [eexists; split; [reflexivity|];
          repeat split; eexists; vm_compute; reflexivity|];
  eexists; eexists; split; reflexivity.

Lemma channel_stats_on_mock :
  exists df,
    get_channel_stats (libs := Reference.libraries) yt YOUTUBE_CHANNEL_IDS
      (Mock.world (Mock.mkState [Ok two_channels] [] [] [] []))
    = (Return df,
       mkWorld (Mock.mkState [] [] [] [] []) ([] ++ [channel_request YOUTUBE_CHANNEL_IDS])
               [] [])
    /\ columns df
       = match default [] (items two_channels) with [] => [] | _ :: _ => channel_labels end
    /\ Forall2 (channel_row_of (libs := Reference.libraries))
         (default [] (items two_channels)) (rows df).
Proof.
  apply (channel_stats_one_row_per_item (libs := Reference.libraries) yt
           YOUTUBE_CHANNEL_IDS
           (Mock.world (Mock.mkState [Ok two_channels] [] [] [] []))
           two_channels (Mock.mkState [] [] [] [] [])).
  - reflexivity.
  - simpl. repeat (apply Forall_cons; split; [complete_channel|]). constructor.
Defined.

Lemma channel_exception_on_mock :
  get_channel_stats (libs := Reference.libraries) yt YOUTUBE_CHANNEL_IDS
    (Mock.world
       (Mock.mkState
          [Ok (mkListing
                 (Some ([channel "UCttspZesZIDEwwpVIgoZtWQ" "First" []]
                        ++ channel_without_statistics :: []))
                 None)]
          [] [] [] []))
  = (Raise (KeyError "statistics"),
     mkWorld (Mock.mkState [] [] [] [] []) ([] ++ [channel_request YOUTUBE_CHANNEL_IDS])
             [] []).
Proof.
  apply (channel_row_exception_escapes (libs := Reference.libraries) yt
           YOUTUBE_CHANNEL_IDS
           (Mock.world
              (Mock.mkState
                 [Ok (mkListing
                        (Some ([channel "UCttspZesZIDEwwpVIgoZtWQ" "First" []]
                               ++ channel_without_statistics :: []))
                        None)]
                 [] [] [] []))
           (mkListing
              (Some ([channel "UCttspZesZIDEwwpVIgoZtWQ" "First" []]
                     ++ channel_without_statistics :: []))
              None)
           (Mock.mkState [] [] [] [] [])
           [channel "UCttspZesZIDEwwpVIgoZtWQ" "First" []]
           channel_without_statistics [] (KeyError "statistics")).
  - reflexivity.
  - reflexivity.
  - apply Forall_cons; split; [complete_channel | constructor].
  - reflexivity.
Defined.

(** ** Live streams *)

Section LiveStreams.
Context {PState : Type} {client : Provider PState}.

(** X4: When the search fails with an [HttpError], [get_live_streams] logs it
    and returns an empty list. *)
Theorem live_search_failure_gives_no_stream self channel_id max_results
  (w : World PState) status content p1 :
  search_list "snippet" channel_id "live" "video" max_results (provider w)
    = (Failed status content, p1) ->
  get_live_streams self channel_id max_results w =
  (Return [],
   mkWorld p1 (requests w ++ [live_request channel_id max_results])
           (log w ++ [live_error channel_id status content]) (files w)).
Proof.
  intros Hfail. unfold get_live_streams, bind, execute, live_request.
  rewrite Hfail. reflexivity.
Qed.

Lemma live_video_complete item :
  search_complete item -> live_video_of item = Return (live_record item).
Proof.
  intros ((id & Hid) & (snippet & Hs)). unfold live_video_of, live_record.
  rewrite Hid, Hs. reflexivity.
Qed.

(** X5: When the search answers, [get_live_streams] returns one record per
    item, in response order, each with [videoId], [title] and
    [publishedAt] (null where the item has none); nothing is logged. *)
Theorem live_streams_one_record_per_item self channel_id max_results
  (w : World PState) response p1 :
  search_list "snippet" channel_id "live" "video" max_results (provider w)
    = (Ok response, p1) ->
  Forall search_complete (default [] (items response)) ->
  get_live_streams self channel_id max_results w =
  (Return (map live_record (default [] (items response))),
   mkWorld p1 (requests w ++ [live_request channel_id max_results]) (log w) (files w)).
Proof.
  intros Hok Hcomplete. unfold get_live_streams, bind, execute, lift, live_request.
  rewrite Hok. rewrite ofold_collect.
  rewrite (omap_total live_video_of live_record); [reflexivity|].
  intros item Hin. apply live_video_complete.
  rewrite Forall_forall in Hcomplete. apply Hcomplete. apply list_elem_of_In. exact Hin.
Qed.

(** X6: A search item without [id] raises [KeyError], which escapes. *)
Theorem live_item_without_id_raises self channel_id max_results
  (w : World PState) response p1 before item after :
  search_list "snippet" channel_id "live" "video" max_results (provider w)
    = (Ok response, p1) ->
  items response = Some (before ++ item :: after) ->
  Forall search_complete before ->
  si_id item = None ->
  get_live_streams self channel_id max_results w =
  (Raise (KeyError "id"),
   mkWorld p1 (requests w ++ [live_request channel_id max_results]) (log w) (files w)).
Proof.
  intros Hok Hitems Hbefore Hid.
  unfold get_live_streams, bind, execute, lift, live_request.
  rewrite Hok, Hitems. simpl default. rewrite ofold_collect.
  rewrite (omap_app_raise live_video_of before after item (KeyError "id")); [reflexivity| |].
  - eapply Forall_impl; [exact Hbefore|]. intros it Hc.
    exists (live_record it). apply live_video_complete. exact Hc.
  - unfold live_video_of. rewrite Hid. reflexivity.
Qed.

End LiveStreams.

Lemma live_failure_on_mock :
  get_live_streams yt (PStr "UCttspZesZIDEwwpVIgoZtWQ") 5
    (Mock.world (Mock.mkState [] [] [] [Failed 403 "quotaExceeded"] []))
  = (Return [],
     mkWorld (Mock.mkState [] [] [] [] [])
             ([] ++ [live_request (PStr "UCttspZesZIDEwwpVIgoZtWQ") 5])
             ([] ++ [live_error (PStr "UCttspZesZIDEwwpVIgoZtWQ") 403 "quotaExceeded"])
             []).
Proof.
  apply (live_search_failure_gives_no_stream yt (PStr "UCttspZesZIDEwwpVIgoZtWQ") 5
           (Mock.world (Mock.mkState [] [] [] [Failed 403 "quotaExceeded"] []))
           403 "quotaExceeded" (Mock.mkState [] [] [] [] [])).
  reflexivity.
Defined.

Lemma live_records_on_mock :
  get_live_streams yt (PStr "UCttspZesZIDEwwpVIgoZtWQ") 5
    (Mock.world
       (Mock.mkState [] [] []
          [Ok (mkListing (Some [live_item "x1" "Live now"; live_item "x2" "Also live"])
                 None)] []))
  = (Return (map live_record [live_item "x1" "Live now"; live_item "x2" "Also live"]),
     mkWorld (Mock.mkState [] [] [] [] [])
             ([] ++ [live_request (PStr "UCttspZesZIDEwwpVIgoZtWQ") 5]) [] []).
Proof.
  apply (live_streams_one_record_per_item yt (PStr "UCttspZesZIDEwwpVIgoZtWQ") 5
           (Mock.world
              (Mock.mkState [] [] []
                 [Ok (mkListing
                        (Some [live_item "x1" "Live now"; live_item "x2" "Also live"])
                        None)] []))
           (mkListing (Some [live_item "x1" "Live now"; live_item "x2" "Also live"]) None)
           (Mock.mkState [] [] [] [] [])).
  - reflexivity.
  - simpl. repeat (apply Forall_cons; split; [split; eexists; reflexivity|]). constructor.
Defined.

Lemma live_item_without_id_on_mock :
  get_live_streams yt (PStr "UCttspZesZIDEwwpVIgoZtWQ") 5
    (Mock.world
       (Mock.mkState [] [] []
          [Ok (mkListing
                 (Some ([live_item "x1" "Live now"]
                        ++ {| si_id := None; si_snippet := Some [] |} :: []))
                 None)] []))
  = (Raise (KeyError "id"),
     mkWorld (Mock.mkState [] [] [] [] [])
             ([] ++ [live_request (PStr "UCttspZesZIDEwwpVIgoZtWQ") 5]) [] []).
Proof.
  apply (live_item_without_id_raises yt (PStr "UCttspZesZIDEwwpVIgoZtWQ") 5
           (Mock.world
              (Mock.mkState [] [] []
                 [Ok (mkListing
                        (Some ([live_item "x1" "Live now"]
                               ++ {| si_id := None; si_snippet := Some [] |} :: []))
                        None)] []))
           (mkListing
              (Some ([live_item "x1" "Live now"]
                     ++ {| si_id := None; si_snippet := Some [] |} :: []))
              None)
           (Mock.mkState [] [] [] [] [])
           [live_item "x1" "Live now"] {| si_id := None; si_snippet := Some [] |} []).
  - reflexivity.
  - reflexivity.
  - apply Forall_cons; split; [split; eexists; reflexivity | constructor].
  - reflexivity.
Defined.

(** ** Id collection: the whole traversal *)

Section Traversal.
Context {PState : Type} {client : Provider PState}.

(** X7: When the provider answers a run of pages with cursors and then a page
    without one, [get_video_ids] returns the identifiers of all of them in
    page order, after one request per page, each with the cursor of the
    page before; nothing is logged. *)
Theorem collects_every_page fuel self pl (w : World PState)
  pages p tok ids final final_ids p' :
  served pl (provider w) None pages p tok ->
  pages_ids pages = Some ids ->
  playlistItems_list "contentDetails" pl 50 tok p = (Ok final, p') ->
  page_ids (default [] (items final)) = Some final_ids ->
  token_truthy (nextPageToken final) = false ->
  (length pages < fuel)%nat ->
  get_video_ids fuel self pl w =
  (Return (ids ++ final_ids),
   mkWorld p' (requests w ++ map (page_request pl) (None :: map nextPageToken pages))
           (log w) (files w)).
Proof.
  intros Hserved Hids Hlast Hfinal Hend Hfuel. unfold get_video_ids.
  exact (collect_to_last_page pl _ _ _ _ _ Hserved ids [] fuel w final final_ids p'
           eq_refl Hids Hlast Hfinal Hend Hfuel).
Qed.

Lemma collect_keeps_truthy page_items acc acc' :
  ofold collect_video_id page_items acc = Return acc' ->
  Forall (fun v => truthy v = true) acc ->
  Forall (fun v => truthy v = true) acc'.
Proof.
  revert acc; induction page_items as [|item rest IH]; intros acc; simpl.
  - intros [= <-] H. exact H.
  - unfold collect_video_id at 1.
    destruct (pi_contentDetails item) as [details|]; simpl; [|discriminate].
    destruct (truthy (dict_get details "videoId")) eqn:E; simpl; intros H Hacc.
    + apply (IH _ H). apply Forall_app. split; [exact Hacc|].
      constructor; [exact E | constructor].
    + apply (IH _ H Hacc).
Qed.

Lemma loop_keeps_truthy fuel pl tok acc (w : World PState) ids w' :
  get_video_ids_loop fuel pl tok acc w = (Return ids, w') ->
  Forall (fun v => truthy v = true) acc ->
  Forall (fun v => truthy v = true) ids.
Proof.
  revert tok acc w; induction fuel as [|fuel IH]; intros tok acc w; simpl.
  - discriminate.
  - unfold bind at 1, execute.
    destruct (playlistItems_list _ _ _ _ (provider w)) as [[page|status content] p1].
    + unfold bind at 1, lift.
      destruct (ofold collect_video_id (default [] (items page)) acc) as [acc1| |] eqn:E;
        try discriminate.
      destruct (token_truthy (nextPageToken page)).
      * intros H Hacc. eapply IH; [exact H|]. eapply collect_keeps_truthy; eauto.
      * unfold ret. intros [= <- _] Hacc. eapply collect_keeps_truthy; eauto.
    + unfold bind, logging, ret. intros [= <- _] Hacc. exact Hacc.
Qed.

(** X8: Whatever the provider answers, every identifier [get_video_ids]
    returns is truthy: never null, never the empty string. *)
Theorem collected_ids_are_truthy fuel self pl (w : World PState) ids w' :
  get_video_ids fuel self pl w = (Return ids, w') ->
  Forall (fun v => truthy v = true) ids.
Proof.
  unfold get_video_ids. intros H. eapply loop_keeps_truthy; [exact H | constructor].
Qed.

Lemma collect_page_fail page_items acc :
  page_ids page_items = None ->
  ofold collect_video_id page_items acc = Raise (KeyError "contentDetails").
Proof.
  revert acc; induction page_items as [|item rest IH]; intros acc; simpl; [discriminate|].
  unfold item_video_ids, collect_video_id at 1.
  destruct (pi_contentDetails item) as [details|]; simpl; [|reflexivity].
  destruct (page_ids rest) as [b|]; [discriminate|]. intros _.
  destruct (truthy (dict_get details "videoId")); simpl; apply IH; reflexivity.
Qed.

Lemma collect_until_bad_page pl p tok pages p' tok' :
  served pl p tok pages p' tok' ->
  forall ids acc fuel (w : World PState) bad p'',
    provider w = p ->
    pages_ids pages = Some ids ->
    playlistItems_list "contentDetails" pl 50 tok' p' = (Ok bad, p'') ->
    page_ids (default [] (items bad)) = None ->
    (length pages < fuel)%nat ->
    get_video_ids_loop fuel pl tok acc w =
    (Raise (KeyError "contentDetails"),
     mkWorld p'' (requests w ++ map (page_request pl) (tok :: map nextPageToken pages))
             (log w) (files w)).
Proof.
  induction 1 as [p tok | p tok page p1 rest p' tok' Hpage Htok Hrest IH];
    intros ids acc fuel w bad p'' Hw Hids Hbad Hnone Hfuel.
  - destruct fuel as [|fuel]; [simpl in Hfuel; lia|]. simpl.
    unfold bind at 1, execute. rewrite Hw, Hbad.
    unfold bind, lift. rewrite (collect_page_fail _ acc Hnone). reflexivity.
  - destruct fuel as [|fuel]; [simpl in Hfuel; lia|].
    simpl in Hids.
    destruct (page_ids (default [] (items page))) as [a|] eqn:Ea; [|discriminate].
    destruct (pages_ids rest) as [b|] eqn:Eb; [|discriminate].
    simpl get_video_ids_loop.
    unfold bind at 1, execute. rewrite Hw, Hpage.
    unfold bind at 1, lift. rewrite (collect_page _ a acc Ea). rewrite Htok.
    rewrite (IH b (acc ++ a) fuel _ bad p'');
      [| reflexivity | reflexivity | exact Hbad | exact Hnone | simpl in Hfuel; lia].
    simpl. rewrite <- !app_assoc. reflexivity.
Qed.

(** X9: An item without [contentDetails] on any page makes [get_video_ids]
    raise [KeyError]: the identifiers of the pages before are not returned
    and nothing is logged. *)
Theorem item_without_details_aborts fuel self pl (w : World PState)
  pages p tok ids bad p' :
  served pl (provider w) None pages p tok ->
  pages_ids pages = Some ids ->
  playlistItems_list "contentDetails" pl 50 tok p = (Ok bad, p') ->
  page_ids (default [] (items bad)) = None ->
  (length pages < fuel)%nat ->
  get_video_ids fuel self pl w =
  (Raise (KeyError "contentDetails"),
   mkWorld p' (requests w ++ map (page_request pl) (None :: map nextPageToken pages))
           (log w) (files w)).
Proof.
  intros Hserved Hids Hbad Hnone Hfuel. unfold get_video_ids.
  exact (collect_until_bad_page pl _ _ _ _ _ Hserved ids [] fuel w bad p'
           eq_refl Hids Hbad Hnone Hfuel).
Qed.

End Traversal.

Lemma every_page_on_mock :
  get_video_ids 10 yt (PStr "UUuploads") (Mock.world three_pages) =
  (Return ([PStr "a"; PStr "b"; PStr "c"] ++ [PStr "d"]),
   mkWorld (Mock.mkState [] [] [] [] [])
           ([] ++ map (page_request (PStr "UUuploads"))
                    (None :: map nextPageToken [first_page; second_page]))
           [] []).
Proof.
  apply (collects_every_page 10 yt (PStr "UUuploads") (Mock.world three_pages)
           [first_page; second_page]
           (Mock.mkState [] [Ok last_page] [] [] []) (Some "CAoQAA")
           [PStr "a"; PStr "b"; PStr "c"] last_page [PStr "d"]
           (Mock.mkState [] [] [] [] []));
    [ | reflexivity | reflexivity | reflexivity | reflexivity | simpl; lia ].
  eapply served_page; [reflexivity | reflexivity |].
  eapply served_page; [reflexivity | reflexivity |].
  apply served_none.
Defined.

Lemma truthy_ids_on_mock :
  get_video_ids 10 yt (PStr "UUuploads") (Mock.world three_pages)
  = (Return [PStr "a"; PStr "b"; PStr "c"; PStr "d"],
     mkWorld (Mock.mkState [] [] [] [] [])
       (map (page_request (PStr "UUuploads"))
          (None :: map nextPageToken [first_page; second_page]))
       [] [])
  /\ Forall (fun v => truthy v = true) [PStr "a"; PStr "b"; PStr "c"; PStr "d"].
Proof.
  split; [reflexivity|].
  apply (collected_ids_are_truthy 10 yt (PStr "UUuploads") (Mock.world three_pages)
           [PStr "a"; PStr "b"; PStr "c"; PStr "d"]
           (mkWorld (Mock.mkState [] [] [] [] [])
              (map (page_request (PStr "UUuploads"))
                 (None :: map nextPageToken [first_page; second_page]))
              [] [])).
  reflexivity.
Defined.

Lemma item_without_details_on_mock :
  get_video_ids 10 yt (PStr "UUuploads") (Mock.world second_page_broken) =
  (Raise (KeyError "contentDetails"),
   mkWorld (Mock.mkState [] [] [] [] [])
           ([] ++ map (page_request (PStr "UUuploads"))
                    (None :: map nextPageToken [first_page]))
           [] []).
Proof.
  apply (item_without_details_aborts 10 yt (PStr "UUuploads")
           (Mock.world second_page_broken) [first_page]
           (Mock.mkState [] [Ok broken_page] [] [] []) (Some "CAUQAA")
           [PStr "a"; PStr "b"] broken_page (Mock.mkState [] [] [] [] []));
    [ | reflexivity | reflexivity | reflexivity | simpl; lia ].
  eapply served_page; [reflexivity | reflexivity |]. apply served_none.
Defined.

(** ** Detail fetch: the rows and the frame *)

(** X10: Every row has the same thirteen labels, whatever the video carries:
    [video_id] is the video's [id], each allow-listed key is read from its
    own section (null when the section or the key is missing), and nothing
    else of the video is kept. *)
Theorem video_row_projection (video : VideoItem) :
  map fst (video_info_of video) = video_labels
  /\ dict_get (video_info_of video) "video_id" = vi_id video
  /\ forall section keys key,
       In (section, keys) stats_to_keep -> In key keys ->
       dict_get (video_info_of video) key
       = dict_get (video_get (vi_parts video) section) key.
Proof.
  split; [reflexivity|]. split; [reflexivity|].
  intros section keys key Hs Hk. simpl in Hs.
  destruct Hs as [[= <- <-]|[[= <- <-]|[[= <- <-]|[]]]]; simpl in Hk;
    repeat (destruct Hk as [<-|Hk]; [reflexivity|]); destruct Hk.
Qed.

Lemma uniform_frame_labels (labels : list string) (records : list dict) :
  add_labels [] labels = labels -> add_labels labels labels = labels ->
  Forall (fun d => map fst d = labels) records ->
  columns (frame_of_records records)
  = match records with [] => [] | _ :: _ => labels end.
Proof.
  intros Hfresh Hagain. unfold frame_of_records; simpl.
  destruct 1 as [|d records Hd Hrest]; [reflexivity|].
  simpl. rewrite Hd, Hfresh.
  induction Hrest as [|d' records Hd' _ IH]; simpl; [reflexivity|].
  rewrite Hd', Hagain. exact IH.
Qed.

Section DetailFrame.
Context {PState : Type} {client : Provider PState}.

Lemma reply_rows_labels (replies : list (Reply (Listing VideoItem))) :
  Forall (fun d => map fst d = video_labels) (concat (map reply_rows replies)).
Proof.
  induction replies as [|reply replies IH]; simpl; [constructor|].
  apply Forall_app. split; [|exact IH].
  destruct reply as [response|status content]; simpl; [|constructor].
  induction (default [] (items response)) as [|v vs IHv]; simpl; constructor;
    [reflexivity | exact IHv].
Qed.

(** X11: On string identifiers the detail fetch always returns a frame, and the
    frame is either [pd.DataFrame()] (no row, no column) or has the thirteen
    labels in order, among them every column enrichment reads. *)
Theorem detail_frame_schema self (ids : list string) (w : World PState) :
  exists df w',
    get_video_details self (map PStr ids) w = (Return df, w')
    /\ ((rows df = [] /\ columns df = [])
        \/ (rows df <> [] /\ columns df = video_labels
            /\ forall c, In c required_columns -> has_column df c = true)).
Proof.
  rewrite detail_fetch_run. eexists. eexists. split; [reflexivity|].
  pose proof (reply_rows_labels (fst (serve (chunks 50 ids) (provider w)))) as Hl.
  rewrite (uniform_frame_labels video_labels _ eq_refl eq_refl Hl).
  destruct (concat (map reply_rows (fst (serve (chunks 50 ids) (provider w)))))
    as [|d ds]; [left; split; reflexivity|].
  right. split; [discriminate|]. split; [reflexivity|].
  intros c Hc. unfold has_column.
  rewrite (uniform_frame_labels video_labels _ eq_refl eq_refl Hl).
  simpl in Hc. repeat (destruct Hc as [<-|Hc]; [reflexivity|]). destruct Hc.
Qed.

Lemma serve_length (groups : list (list string)) (p : PState) :
  length (fst (serve groups p)) = length groups.
Proof.
  revert p; induction groups as [|g gs IH]; intros p; simpl; [reflexivity|].
  destruct (videos_list details_part (join "," g) p) as [reply p1].
  specialize (IH p1). destruct (serve gs p1) as [replies p2]. simpl in *.
  rewrite IH. reflexivity.
Qed.

Lemma failed_replies (replies : list (Reply (Listing VideoItem))) :
  Forall (fun reply => is_failure reply = true) replies ->
  concat (map reply_rows replies) = []
  /\ length (concat (map reply_log replies)) = length replies.
Proof.
  induction 1 as [|reply replies Hr _ [IHr IHl]]; simpl; [split; reflexivity|].
  destruct reply; [discriminate|]. simpl. rewrite IHr, IHl. split; reflexivity.
Qed.

(** X12: When every chunk fails, the detail fetch still returns: the frame is
    [pd.DataFrame()], and one error was logged per chunk, [ceil(N / 50)] in
    all. *)
Theorem all_chunks_failing_gives_empty_frame self (ids : list string)
  (w : World PState) :
  Forall (fun reply => is_failure reply = true)
         (fst (serve (chunks 50 ids) (provider w))) ->
  get_video_details self (map PStr ids) w =
  (Return empty_frame,
   mkWorld (snd (serve (chunks 50 ids) (provider w)))
           (requests w ++ map detail_request (chunks 50 ids))
           (log w ++ concat (map reply_log (fst (serve (chunks 50 ids) (provider w)))))
           (files w))
  /\ length (concat (map reply_log (fst (serve (chunks 50 ids) (provider w)))))
     = ((length ids + 49) / 50)%nat.
Proof.
  intros Hfail. rewrite detail_fetch_run.
  pose proof (serve_length (chunks 50 ids) (provider w)) as Hlen.
  pose proof (failed_replies _ Hfail) as Hrows.
  destruct Hrows as [Hrows Hlog]. rewrite Hrows. split; [reflexivity|].
  rewrite Hlog, Hlen. unfold chunks.
  apply (chunks_fuel_count (length ids) 50 ids); lia.
Qed.

Lemma str_items_non_string (vs : list pyval) :
  (exists v, In v vs /\ is_str v = false) ->
  str_items vs = Raise (TypeError "sequence item: expected str instance").
Proof.
  intros (v & Hin & Hv). induction vs as [|x vs IH]; [destruct Hin|].
  destruct Hin as [->|Hin].
  - destruct v; try reflexivity. discriminate.
  - destruct x; try reflexivity. simpl. rewrite (IH Hin). reflexivity.
Qed.

(** X13: An identifier that is not a string among the first fifty makes the
    detail fetch raise [TypeError] from the [join], before any request. *)
Theorem non_string_id_raises self (ids : list pyval) (w : World PState) :
  (exists v, In v (firstn 50 ids) /\ is_str v = false) ->
  get_video_details self ids w
  = (Raise (TypeError "sequence item: expected str instance"), w).
Proof.
  intros Hbad.
  assert (Hne : exists n, length ids = S n).
  { destruct ids; [destruct Hbad as (v & [] & _) | simpl; eauto]. }
  destruct Hne as [n Hn].
  unfold get_video_details, py_range. rewrite Hn. simpl range_from.
  simpl mfold. unfold bind at 1. unfold bind at 1. unfold fetch_chunk at 1.
  unfold bind at 1, lift, join_ids, slice.
  change (0 + 50 - 0)%nat with 50%nat. change (skipn 0 ids) with ids.
  rewrite (str_items_non_string _ Hbad). reflexivity.
Qed.

End DetailFrame.

Lemma all_chunks_failing_on_mock :
  get_video_details yt (map PStr Mock.many_ids)
    (Mock.world (Mock.mkState [] [] [] [] [])) =
  (Return empty_frame,
   mkWorld (snd (serve (chunks 50 Mock.many_ids) (Mock.mkState [] [] [] [] [])))
           ([] ++ map detail_request (chunks 50 Mock.many_ids))
           ([] ++ concat (map reply_log
                            (fst (serve (chunks 50 Mock.many_ids)
                                    (Mock.mkState [] [] [] [] [])))))
           [])
  /\ length (concat (map reply_log
                       (fst (serve (chunks 50 Mock.many_ids)
                               (Mock.mkState [] [] [] [] [])))))
     = ((length Mock.many_ids + 49) / 50)%nat.
Proof.
  apply (all_chunks_failing_gives_empty_frame yt Mock.many_ids
           (Mock.world (Mock.mkState [] [] [] [] []))).
  vm_compute. repeat constructor.
Defined.

Lemma non_string_id_on_mock :
  get_video_details yt [PStr "a"; PInt 7; PStr "b"] (Mock.world Mock.second_chunk_fails)
  = (Raise (TypeError "sequence item: expected str instance"),
     Mock.world Mock.second_chunk_fails).
Proof.
  apply (non_string_id_raises yt [PStr "a"; PInt 7; PStr "b"]
           (Mock.world Mock.second_chunk_fails)).
  exists (PInt 7). split; [simpl; auto | reflexivity].
Defined.

(** ** Enrichment: shape, success and failure *)

Lemma columns_setitem df col s :
  columns (df_setitem df col s) = add_labels (columns df) [col].
Proof.
  unfold df_setitem, has_column; simpl.
  destruct (existsb (String.eqb col) (columns df)); reflexivity.
Qed.

Lemma columns_setitem_present df col s :
  has_column df col = true -> columns (df_setitem df col s) = columns df.
Proof. unfold df_setitem; simpl. intros ->. reflexivity. Qed.

Lemma add_labels_app seen a b :
  add_labels (add_labels seen a) b = add_labels seen (a ++ b).
Proof.
  revert seen; induction a as [|k a IH]; intros seen; simpl; [reflexivity|].
  destruct (existsb (String.eqb k) seen); apply IH.
Qed.

Lemma add_labels_present df c ks :
  has_column df c = true ->
  add_labels (columns df) (c :: ks) = add_labels (columns df) ks.
Proof. unfold has_column; simpl. intros ->. reflexivity. Qed.

Lemma existsb_add_labels c seen ks :
  existsb (String.eqb c) (add_labels seen ks)
  = existsb (String.eqb c) seen || existsb (String.eqb c) ks.
Proof.
  revert seen; induction ks as [|k ks IH]; intros seen; simpl.
  - rewrite orb_false_r. reflexivity.
  - destruct (existsb (String.eqb k) seen) eqn:E; rewrite IH.
    + destruct (String.eqb c k) eqn:Ek; [|reflexivity].
      apply String.eqb_eq in Ek. subst k. rewrite E. reflexivity.
    + rewrite existsb_app. simpl. rewrite orb_false_r, orb_assoc. reflexivity.
Qed.

Lemma has_column_columns df df' c :
  columns df' = columns df -> has_column df' c = has_column df c.
Proof. unfold has_column. intros ->. reflexivity. Qed.

Lemma kept_rows_refl cols (rs : list (gmap string pyval)) : Forall2 (kept cols) rs rs.
Proof. induction rs; constructor; [intros c _; reflexivity | assumption]. Qed.

Lemma kept_rows_mono (a b : list string) (rs rs' : list (gmap string pyval)) :
  (forall c, In c a -> In c b) ->
  Forall2 (kept a) rs rs' -> Forall2 (kept b) rs rs'.
Proof.
  intros Hab H. eapply Forall2_impl; [exact H|].
  intros r r' Hk c Hc. apply Hk. intros Hin. apply Hc, Hab, Hin.
Qed.

Lemma kept_rows_setitem cols df col (s : Series) (rs : list (gmap string pyval)) :
  length s = length (rows df) -> In col cols ->
  Forall2 (kept cols) rs (rows df) ->
  Forall2 (kept cols) rs (rows (df_setitem df col s)).
Proof.
  intros Hlen Hin H.
  eapply Forall2_trans; [| exact H | exact (set_cells_Forall2 col (rows df) s Hlen)].
  intros r0 r r' Hk [v ->] c Hc. rewrite cell_insert.
  destruct (decide (col = c)) as [<-|]; [contradiction | apply Hk; exact Hc].
Qed.

Lemma kept_column cols c (rs rs' : list (gmap string pyval)) :
  Forall2 (kept cols) rs rs' -> ~ In c cols ->
  map (fun r => cell r c) rs' = map (fun r => cell r c) rs.
Proof.
  intros H Hc. induction H as [|r r' rs rs' Hk _ IH]; simpl; [reflexivity|].
  rewrite (Hk c Hc), IH. reflexivity.
Qed.

Lemma rows_setitem_length df col (s : Series) :
  length s = length (rows df) -> length (rows (df_setitem df col s)) = length (rows df).
Proof. apply set_cells_length. Qed.

Section EnrichmentShape.
Context {libs : Libraries}.

Lemma coerce_column_columns df col df' :
  coerce_column df col = Return df' ->
  has_column df col = true /\ columns df' = columns df.
Proof.
  unfold coerce_column; intros H. obind_inv H. obind_inv H. injection H as <-.
  apply df_getitem_Return in Hx as [Hc _].
  split; [exact Hc | apply columns_setitem_present; exact Hc].
Qed.

Lemma coerce_columns_shape cols : forall df df',
  ofold coerce_column cols df = Return df' ->
  columns df' = columns df
  /\ (forall c, In c cols -> has_column df c = true)
  /\ Forall2 (kept cols) (rows df) (rows df').
Proof.
  induction cols as [|col cols IH]; simpl; intros df df' H.
  - injection H as <-. split; [reflexivity|]. split; [intros c []|].
    apply kept_rows_refl.
  - obind_inv H. rename x into df1.
    destruct (coerce_column_columns _ _ _ Hx) as [Hc E1].
    apply coerce_column_rows in Hx as (_ & _ & R1).
    destruct (IH df1 df' H) as (E & Hcols & K).
    split; [rewrite E; exact E1|]. split.
    + intros c [<-|Hin]; [exact Hc|].
      rewrite <- (has_column_columns df df1 c E1). apply Hcols; exact Hin.
    + eapply Forall2_trans; [| exact R1 | exact K].
      intros x y z (v & _ & ->) Hk c Hn.
      rewrite (Hk c) by (intros Hin; apply Hn; right; exact Hin).
      rewrite cell_insert.
      destruct (decide (col = c)) as [<-|]; [|reflexivity].
      exfalso; apply Hn; left; reflexivity.
Qed.

Lemma series_apply_length (f : pyval -> Outcome pyval) (xs s : Series) :
  series_apply f xs = Return s -> length s = length xs.
Proof.
  unfold series_apply; intros H. obind_inv H. injection H as <-.
  rewrite series_of_results_length. symmetry.
  exact (Forall2_length _ _ _ (omap_Forall2 _ _ _ Hx)).
Qed.

Lemma frame_apply_length (f : DataFrame -> gmap string pyval -> Outcome pyval)
  (df : DataFrame) (s : Series) :
  frame_apply f df = Return s -> length s = length (rows df).
Proof.
  unfold frame_apply; intros H. obind_inv H. injection H as <-.
  rewrite series_of_results_length. symmetry.
  exact (Forall2_length _ _ _ (omap_Forall2 _ _ _ Hx)).
Qed.

Lemma column_length (f : pyval -> pyval) col (rs : list (gmap string pyval)) :
  length (map f (map (fun r => cell r col) rs)) = length rs.
Proof. rewrite !length_map. reflexivity. Qed.

(** One assignment of the walk: the labels grow by [col] and the rows
    stay within [assigned_columns] of the input's. *)
Lemma walk_step df d col (s : Series) added :
  length s = length (rows d) -> In col assigned_columns ->
  columns d = add_labels (columns df) added ->
  Forall2 (kept assigned_columns) (rows df) (rows d) ->
  columns (df_setitem d col s) = add_labels (columns df) (added ++ [col])
  /\ Forall2 (kept assigned_columns) (rows df) (rows (df_setitem d col s)).
Proof.
  intros Hlen Hin E K. split.
  - rewrite columns_setitem, E, add_labels_app. reflexivity.
  - apply kept_rows_setitem; assumption.
Qed.

Lemma present_before df d c added :
  columns d = add_labels (columns df) added ->
  existsb (String.eqb c) added = false ->
  has_column d c = true -> has_column df c = true.
Proof.
  unfold has_column. intros -> Hnew. rewrite existsb_add_labels, Hnew, orb_false_r.
  trivial.
Qed.

Ltac walk d col s Hlen E K dn :=
  let W := fresh "W" in
  pose proof (walk_step _ d col s _ Hlen ltac:(simpl; auto 20) E K) as W;
  clear E K; destruct W as [E K]; simpl app in E;
  set (dn := df_setitem d col s) in *; clearbody dn.

Lemma preprocess_walk self df df' :
  preprocess_video_data self df = Return df' ->
  columns df' = add_labels (columns df) new_columns
  /\ Forall2 (kept assigned_columns) (rows df) (rows df')
  /\ (forall c, In c required_columns -> has_column df c = true).
Proof.
  unfold preprocess_video_data; cbv zeta; intros H.
  obind_inv H. rename x into df4, Hx into F.
  apply coerce_columns_shape in F as (E4 & N4 & K4).
  assert (E : columns df4 = add_labels (columns df) []) by exact E4.
  assert (K : Forall2 (kept assigned_columns) (rows df) (rows df4)).
  { eapply kept_rows_mono; [|exact K4]. intros c Hc. apply in_or_app. left. exact Hc. }
  clear E4 K4.
  (* publishedAt *)
  obind_inv H. apply df_getitem_Return in Hx as [P4 ->].
  apply (present_before df) with (added := []) in P4; [|exact E|reflexivity].
  pose proof (column_length to_datetime_coerce "publishedAt" (rows df4)) as L.
  walk df4 "publishedAt"
    (map to_datetime_coerce (map (fun r => cell r "publishedAt") (rows df4))) L E K df5.
  clear L.
  obind_inv H. apply df_getitem_Return in Hx as [_ ->].
  pose proof (column_length day_name "publishedAt" (rows df5)) as L.
  walk df5 "publishDayName"
    (map day_name (map (fun r => cell r "publishedAt") (rows df5))) L E K df6.
  clear L.
  (* durationSecs *)
  obind_inv H. apply df_getitem_Return in Hx as [D6 ->].
  apply (present_before df) with (added := ["publishedAt"; "publishDayName"]) in D6;
    [|exact E|reflexivity].
  obind_inv H. rename x into s7. apply series_apply_length in Hx.
  rewrite length_map in Hx.
  walk df6 "durationSecs" s7 Hx E K df7. clear Hx.
  (* tagsCount *)
  obind_inv H. apply df_getitem_Return in Hx as [T7 ->].
  eapply (present_before df) in T7; [|exact E|reflexivity].
  pose proof (column_length tags_count "tags" (rows df7)) as L.
  walk df7 "tagsCount"
    (map tags_count (map (fun r => cell r "tags") (rows df7))) L E K df8.
  clear L.
  (* the two ratios *)
  obind_inv H. rename x into s9. apply frame_apply_length in Hx.
  walk df8 "likeRatio" s9 Hx E K df9. clear Hx.
  obind_inv H. rename x into s10. apply frame_apply_length in Hx.
  walk df9 "commentRatio" s10 Hx E K df10. clear Hx.
  (* titleLength *)
  obind_inv H. apply df_getitem_Return in Hx as [I10 ->].
  eapply (present_before df) in I10; [|exact E|reflexivity].
  pose proof (column_length title_length "title" (rows df10)) as L.
  walk df10 "titleLength"
    (map title_length (map (fun r => cell r "title") (rows df10))) L E K df11.
  injection H as <-.
  split; [|split; [exact K|]].
  - rewrite E. exact (add_labels_present df "publishedAt" new_columns P4).
  - intros c Hc. simpl in Hc.
    destruct Hc as [<-|[<-|[<-|[<-|[<-|[<-|[<-|[<-|[]]]]]]]]];
      try assumption; apply N4; simpl; auto.
Qed.

End EnrichmentShape.

Ltac not_in_list :=
  simpl; intros Hin; repeat (destruct Hin as [Hin|Hin]; [discriminate|]); exact Hin.

Section EnrichmentLaws.
Context {libs : Libraries}.

(** X14: Enrichment keeps the rows in place and the input's labels in order,
    appends those of the six new labels the input does not have yet, and
    leaves every cell outside the eleven labels it assigns as it was. *)
Theorem enrichment_frame_shape self df df' :
  preprocess_video_data self df = Return df' ->
  columns df' = add_labels (columns df) new_columns
  /\ length (rows df') = length (rows df)
  /\ Forall2 (kept assigned_columns) (rows df) (rows df').
Proof.
  intros H. destruct (preprocess_walk self df df' H) as (E & K & _).
  split; [exact E|]. split; [|exact K].
  symmetry. exact (Forall2_length _ _ _ K).
Qed.



Lemma enriched_duration r r' : enriched r r' -> duration_law r r'.
Proof.
  intros [_ _ _ _ _ _ (q & Hq & Hs) _ _ _ _].
  unfold duration_secs in Hq. split; intros Hn; rewrite Hn in Hq.
  - injection Hq as <-. destruct Hs as [-> | ->]; reflexivity.
  - unfold parse_duration in Hq.
    destruct (cell r "duration") as [| | |s| | |]; simpl in Hq; try discriminate.
    destruct (parse_duration_str s) as [d| |] eqn:Ed; simpl in Hq; try discriminate.
    injection Hq as <-. exists s, d. split; [reflexivity|]. split; [exact Ed|].
    destruct Hs as [-> | ->]; reflexivity.
Qed.

(** X16: In every record of a returned frame [durationSecs] is null when the
    duration is null, and otherwise the duration is a string [isodate]
    parsed and [durationSecs] is its [total_seconds()], a float. *)
Theorem duration_in_seconds self df df' :
  preprocess_video_data self df = Return df' ->
  Forall2 duration_law (rows df) (rows df').
Proof.
  intros H. eapply Forall2_impl; [exact (preprocess_rows self df df' H)|].
  exact enriched_duration.
Qed.



Lemma coerce_columns_progress cols : forall df,
  (forall c, In c cols -> has_column df c = true) ->
  Forall (fun r => forall c, In c cols -> exists v, coerce_count (cell r c) = Return v)
         (rows df) ->
  exists df', ofold coerce_column cols df = Return df'.
Proof.
  induction cols as [|col cols IH]; simpl; intros df Hcols Hrows; [eauto|].
  destruct (coerce_column_total df col) as [df1 H1].
  { apply Hcols. left. reflexivity. }
  { eapply Forall_impl; [exact Hrows|]. intros r Hr. apply Hr. left. reflexivity. }
  rewrite H1. simpl. apply coerce_column_rows in H1 as (K1 & _ & R1).
  apply IH.
  - intros c Hc. apply K1, Hcols. right. exact Hc.
  - eapply Forall_step; [exact Hrows | exact R1 |].
    intros r r' Hr (v & Hv & ->) c Hc. rewrite cell_insert.
    destruct (decide (col = c)) as [_|_]; [|apply Hr; right; exact Hc].
    destruct (coerce_count_int _ _ Hv) as [z ->]. exists (PInt z). reflexivity.
Qed.

(** X18: The first row whose duration [isodate] refuses stops enrichment: on a
    frame with the columns read and counts that convert,
    [preprocess_video_data] raises that row's exception, and no frame is
    returned for any row. *)
Theorem unparseable_duration_raises self df before r after e :
  (forall c, In c required_columns -> has_column df c = true) ->
  Forall countable (rows df) ->
  rows df = before ++ r :: after ->
  Forall duration_readable before ->
  duration_secs (cell r "duration") = Raise e ->
  preprocess_video_data self df = Raise e.
Proof.
  intros Hcols Hcount Hrows Hbefore Hbad.
  unfold preprocess_video_data; cbv zeta.
  destruct (coerce_columns_progress numeric_cols df) as [df4 F].
  { intros c Hc. apply Hcols. revert Hc. simpl. tauto. }
  { exact Hcount. }
  rewrite F. unfold obind at 1.
  apply coerce_columns_shape in F as (E4 & _ & K4).
  assert (P4 : has_column df4 "publishedAt" = true).
  { rewrite (has_column_columns df df4 _ E4). apply Hcols. simpl. auto 10. }
  assert (D4 : has_column df4 "duration" = true).
  { rewrite (has_column_columns df df4 _ E4). apply Hcols. simpl. auto 10. }
  unfold df_getitem at 1. rewrite P4. unfold obind at 1.
  pose proof (kept_rows_setitem
                (numeric_cols ++ ["publishedAt"; "publishDayName"]) df4 "publishedAt"
                (map to_datetime_coerce (map (fun r => cell r "publishedAt") (rows df4)))
                (rows df)
                (column_length to_datetime_coerce "publishedAt" (rows df4))
                ltac:(simpl; auto 10)
                (kept_rows_mono _ _ _ _ ltac:(intros c Hc; apply in_or_app; left; exact Hc) K4))
    as K5.
  pose proof (has_column_setitem_same df4 "publishedAt"
    (map to_datetime_coerce (map (fun r => cell r "publishedAt") (rows df4)))) as P5.
  pose proof (has_column_setitem_keep df4 "publishedAt"
    (map to_datetime_coerce (map (fun r => cell r "publishedAt") (rows df4)))
    "duration" D4) as D5.
  set (df5 := df_setitem df4 "publishedAt" _) in *. clearbody df5.
  unfold df_getitem at 1. rewrite P5. unfold obind at 1.
  pose proof (kept_rows_setitem
                (numeric_cols ++ ["publishedAt"; "publishDayName"]) df5 "publishDayName"
                (map day_name (map (fun r => cell r "publishedAt") (rows df5)))
                (rows df)
                (column_length day_name "publishedAt" (rows df5))
                ltac:(simpl; auto 10) K5) as K6.
  pose proof (has_column_setitem_keep df5 "publishDayName"
    (map day_name (map (fun r => cell r "publishedAt") (rows df5)))
    "duration" D5) as D6.
  set (df6 := df_setitem df5 "publishDayName" _) in *. clearbody df6.
  unfold df_getitem at 1. rewrite D6. unfold obind at 1.
  rewrite (kept_column _ "duration" _ _ K6) by not_in_list.
  rewrite Hrows, map_app. simpl map. unfold series_apply.
  rewrite (omap_app_raise duration_secs _ _ _ e); [reflexivity| |exact Hbad].
  apply (Forall_cells (fun v => exists q, duration_secs v = Return q)). exact Hbefore.
Qed.

End EnrichmentLaws.

(** ** Audience insights: the two reports *)

Lemma header_names (headers : list dict) :
  omap (fun header => getitem (dict_lookup header "name") "name") headers
  = if forallb has_name headers
    then Return (map (fun header => dict_get header "name") headers)
    else Raise (KeyError "name").
Proof.
  induction headers as [|h hs IH]; simpl; [reflexivity|].
  unfold has_name at 1, dict_get at 1.
  destruct (dict_lookup h "name") as [v|]; simpl; [|reflexivity].
  rewrite IH. destruct (forallb has_name hs); reflexivity.
Qed.

(** X19: A report without rows gives [pd.DataFrame()], whatever its headers
    are called; but the names are read before the rows are looked at, so
    a header without [name] raises [KeyError] even then. *)
Theorem report_without_rows (response : Report) :
  default [] (report_rows response) = [] ->
  report_table response
  = if forallb has_name (default [] (columnHeaders response))
    then Return (Frame empty_frame) else Raise (KeyError "name").
Proof.
  intros Hrows. unfold report_table. rewrite header_names, Hrows.
  destruct (forallb has_name (default [] (columnHeaders response))); reflexivity.
Qed.

Section Reports.
Context {PState : Type} {client : Provider PState}.




End Reports.

(** ** One channel of the collection loop *)

Section Collection.
Context {PState : Type} {client : Provider PState}.

(** X23: A channel whose first page of uploads fails adds nothing to the
    video table: the error is logged between the two progress lines, no
    detail request is sent and the table is handed on as it was. *)
Theorem channel_without_videos_adds_nothing fuel yt_analytics channel_stats
  all_videos_df row (w : World PState) status content p1 :
  has_column channel_stats "channelName" = true ->
  has_column channel_stats "uploadsPlaylistId" = true ->
  playlistItems_list "contentDetails" (cell row "uploadsPlaylistId") 50 None
    (provider w) = (Failed status content, p1) ->
  (0 < fuel)%nat ->
  collect_channel fuel yt_analytics channel_stats all_videos_df row w
  = (Return all_videos_df,
     mkWorld p1
       (requests w ++ [page_request (cell row "uploadsPlaylistId") None])
       (log w ++ [processing_line (cell row "channelName");
                  page_error (cell row "uploadsPlaylistId") status content;
                  found_line 0 (cell row "channelName")])
       (files w)).
Proof.
  intros Hn Hu Hfail Hfuel. destruct fuel as [|fuel]; [lia|].
  unfold collect_channel, row_getitem. rewrite Hn, Hu.
  unfold get_video_ids. simpl get_video_ids_loop.
  unfold bind, lift, logging, execute, ret. simpl. rewrite Hfail. simpl.
  rewrite <- !app_assoc. reflexivity.
Qed.

(** X24: A channel whose live search fails is still entered in the live-stream
    data, under its name and with an empty list: the error is logged and
    the loop goes on. *)
Theorem failed_search_records_no_stream yt_analytics channel_stats
  live_streams_data row (w : World PState) status content p1 :
  has_column channel_stats "channelId" = true ->
  has_column channel_stats "channelName" = true ->
  hashable (cell row "channelName") = true ->
  search_list "snippet" (cell row "channelId") "live" "video" 5 (provider w)
    = (Failed status content, p1) ->
  probe_channel yt_analytics channel_stats live_streams_data row w
  = (Return (keyed_set live_streams_data (cell row "channelName") []),
     mkWorld p1 (requests w ++ [live_request (cell row "channelId") 5])
       (log w ++ [live_error (cell row "channelId") status content]) (files w)).
Proof.
  intros Hi Hn Hh Hfail. unfold probe_channel, row_getitem. rewrite Hi, Hn.
  unfold get_live_streams.
  unfold bind, lift, logging, execute, ret. simpl. rewrite Hfail. simpl.
  unfold keyed_setitem. rewrite Hh. reflexivity.
Qed.

End Collection.

(** *** Enrichment on the sample frames *)

Lemma shape_on_sample :
  preprocess_video_data (libs := Reference.libraries) yt sample_frame
    = Return sample_enriched
  /\ columns sample_enriched = add_labels (columns sample_frame) new_columns
  /\ length (rows sample_enriched) = length (rows sample_frame)
  /\ Forall2 (kept assigned_columns) (rows sample_frame) (rows sample_enriched).
Proof.
  split; [vm_compute; reflexivity|].
  apply (enrichment_frame_shape (libs := Reference.libraries) yt sample_frame
           sample_enriched).
  vm_compute; reflexivity.
Defined.

Lemma duration_on_sample :
  preprocess_video_data (libs := Reference.libraries) yt sample_frame
    = Return sample_enriched
  /\ Forall2 (duration_law (libs := Reference.libraries))
       (rows sample_frame) (rows sample_enriched).
Proof.
  split; [vm_compute; reflexivity|].
  apply (duration_in_seconds (libs := Reference.libraries) yt sample_frame
           sample_enriched).
  vm_compute; reflexivity.
Defined.


Ltac row_countable :=
  let col := fresh "col" in let Hin := fresh "Hin" in
  intros col Hin; simpl in Hin;
  repeat (destruct Hin as [<-|Hin]; [eexists; vm_compute; reflexivity|]);
  destruct Hin.

Lemma unparseable_duration_on_sample :
  preprocess_video_data (libs := Reference.libraries) yt malformed_duration_frame
  = Raise (ISO8601Error "Unable to parse duration string").
Proof.
  apply (unparseable_duration_raises (libs := Reference.libraries) yt
           malformed_duration_frame
           (firstn 1 (rows malformed_duration_frame))
           (nth 1 (rows malformed_duration_frame) ∅) []).
  - has_columns.
  - unfold malformed_duration_frame, frame_of_records; simpl rows.
    repeat (apply Forall_cons; split; [row_countable|]). constructor.
  - vm_compute; reflexivity.
  - unfold malformed_duration_frame, frame_of_records; simpl rows. simpl firstn.
    apply Forall_cons; split; [eexists; vm_compute; reflexivity | constructor].
  - vm_compute; reflexivity.
Defined.

(** *** The reports on the scripted provider *)

Lemma report_without_rows_on_sample :
  report_table country_report_without_rows
  = if forallb has_name (default [] (columnHeaders country_report_without_rows))
    then Return (Frame empty_frame) else Raise (KeyError "name").
Proof. apply (report_without_rows country_report_without_rows). reflexivity. Defined.



(** The age-and-gender report of the fixture is tabulated under its three
    header names. *)
Example age_report_table :
  report_table age_report
  = Return (Grid [PStr "ageGroup"; PStr "gender"; PStr "viewerPercentage"]
              [ [PStr "age18-24"; PStr "female"; PFloat 12.5%float];
                [PStr "age18-24"; PStr "male"; PFloat 20%float] ]).
Proof. reflexivity. Qed.

(** *** A refused playlist on the scripted provider *)

Lemma channel_without_videos_on_mock :
  collect_channel 10 yt channel_frame empty_frame (nth 0 (rows channel_frame) ∅)
    (Mock.world (Mock.mkState [] [Failed 403 "quotaExceeded"] [] [] []))
  = (Return empty_frame,
     mkWorld (Mock.mkState [] [] [] [] [])
       ([] ++ [page_request (cell (nth 0 (rows channel_frame) ∅) "uploadsPlaylistId")
                 None])
       ([] ++ [processing_line (cell (nth 0 (rows channel_frame) ∅) "channelName");
               page_error (cell (nth 0 (rows channel_frame) ∅) "uploadsPlaylistId")
                 403 "quotaExceeded";
               found_line 0 (cell (nth 0 (rows channel_frame) ∅) "channelName")])
       []).
Proof.
  apply (channel_without_videos_adds_nothing 10 yt channel_frame empty_frame
           (nth 0 (rows channel_frame) ∅)
           (Mock.world (Mock.mkState [] [Failed 403 "quotaExceeded"] [] [] []))
           403 "quotaExceeded" (Mock.mkState [] [] [] [] []));
    [reflexivity | reflexivity | reflexivity | simpl; lia].
Defined.

Lemma failed_search_on_mock :
  probe_channel yt channel_frame [] (nth 0 (rows channel_frame) ∅)
    (Mock.world (Mock.mkState [] [] [] [Failed 403 "quotaExceeded"] []))
  = (Return (keyed_set [] (cell (nth 0 (rows channel_frame) ∅) "channelName") []),
     mkWorld (Mock.mkState [] [] [] [] [])
       ([] ++ [live_request (cell (nth 0 (rows channel_frame) ∅) "channelId") 5])
       ([] ++ [live_error (cell (nth 0 (rows channel_frame) ∅) "channelId")
                 403 "quotaExceeded"])
       []).
Proof.
  apply (failed_search_records_no_stream yt channel_frame []
           (nth 0 (rows channel_frame) ∅)
           (Mock.world (Mock.mkState [] [] [] [Failed 403 "quotaExceeded"] []))
           403 "quotaExceeded" (Mock.mkState [] [] [] [] []));
    reflexivity.
Defined.
